(** * Remote Config: template and version normalization

    A shallow embedding of [src/remote-config/remote-config.ts]: the
    [VersionImpl] and [RemoteConfigTemplateImpl] constructors with their
    [toJSON] methods, and the two facade operations of [RemoteConfig] that
    do more than forward a response ([listVersions] and
    [createTemplateFromJSON]).

    ECMAScript values are an inductive type; a thrown exception is the
    [Throw] outcome of a small error monad; a settled promise is the same
    outcome type.  The built-ins the code calls ([Number], [JSON.parse],
    [JSON.stringify], [Date]) are an interface, [Runtime]; the theorems hold
    for every runtime, and [Reference.runtime] is an executable one on which
    the examples are run. *)

From Stdlib Require Import ZArith List String Ascii Bool Lia DecimalString.
Import ListNotations.
Local Open Scope string_scope.

(* ================================================================= *)
(** ** ECMAScript values *)

Module JS.

(** A Number value: NaN, an infinity, or the finite value [m * 2^e]. *)
Inductive JSNumber : Type :=
| NaN
| Infinity (negative : bool)
| Finite (m e : Z).

(** [Number.isInteger]: finite and without fractional part. *)
Definition Number_isInteger (n : JSNumber) : bool :=
  match n with
  | Finite m e => if (0 <=? e)%Z then true else (m mod 2 ^ (- e) =? 0)%Z
  | _ => false
  end.

#[warnings="-register-all"] Inductive Value : Type :=
| VUndefined
| VNull
| VBoolean (b : bool)
| VNumber (n : JSNumber)
| VString (s : string)
| VArray (elements : list Value)
| VObject (properties : list (string * Value)).

(** The [typeof] operator. *)
Definition typeof (v : Value) : string :=
  match v with
  | VUndefined => "undefined"
  | VNull | VArray _ | VObject _ => "object"
  | VBoolean _ => "boolean"
  | VNumber _ => "number"
  | VString _ => "string"
  end.

Fixpoint lookup (k : string) (ps : list (string * Value)) : Value :=
  match ps with
  | [] => VUndefined
  | (k', v) :: ps' => if k' =? k then v else lookup k ps'
  end.

(** Property read [o.k].  A property that is missing reads as [undefined];
    the code reads properties only behind an [isNonNullObject] guard, so the
    other shapes (where a read throws or reaches a prototype) do not
    matter. *)
Definition get (o : Value) (k : string) : Value :=
  match o with
  | VObject ps => lookup k ps
  | _ => VUndefined
  end.

(** The object without its property [k]. *)
Definition delete (k : string) (o : Value) : Value :=
  match o with
  | VObject ps => VObject (filter (fun p => negb (fst p =? k)) ps)
  | _ => o
  end.

(** The characters of a string value, as a template literal or
    [JSON.parse] sees them; only used on values already known to be
    strings. *)
Definition chars (v : Value) : string :=
  match v with
  | VString s => s
  | _ => EmptyString
  end.

(** Exceptions: the module's own error class (its [code] and [message]
    constructor arguments), a [TypeError] of the language, and whatever the
    transport client rejects with. *)
Inductive Exception : Type :=
| FirebaseRemoteConfigError (code message : string)
| TypeError (message : string)
| TransportError (reason : string).

(** The outcome of a call that may throw, or of a settled promise. *)
Inductive Result (A : Type) : Type :=
| Ok (a : A)
| Throw (e : Exception).

Arguments Ok {A} a.
Arguments Throw {A} e.

Definition bind {A B : Type} (c : Result A) (k : A -> Result B) : Result B :=
  match c with
  | Ok a => k a
  | Throw e => Throw e
  end.

Definition error_code (e : Exception) : string :=
  match e with
  | FirebaseRemoteConfigError c _ => c
  | TypeError _ => "TypeError"
  | TransportError _ => "transport"
  end.

(** [Array.prototype.map] with a callback that may throw: the elements are
    visited in order and the first exception aborts the call. *)
Fixpoint Array_map {A B : Type} (f : A -> Result B) (xs : list A) : Result (list B) :=
  match xs with
  | [] => Ok []
  | x :: xs' => bind (f x) (fun y => bind (Array_map f xs') (fun ys => Ok (y :: ys)))
  end.

(** The built-ins of the language that the module calls. *)
Class Runtime : Type := {
  (** [Number(s)] on a string. *)
  Number_of_string : string -> JSNumber;
  (** [JSON.parse(s)]: the parsed value, or the thrown [SyntaxError] as string
      concatenation renders it. *)
  JSON_parse : string -> Value + string;
  (** [JSON.stringify(v)] as a template literal interpolates it. *)
  JSON_stringify : Value -> string;
  (** [Date.parse(s)]: milliseconds since the epoch, [None] for NaN. *)
  Date_parse : string -> option Z;
  (** [toUTCString] of a valid time value. *)
  Date_toUTCString : Z -> string;
  (** The two date-string grammars of the validator. *)
  ISO_date_grammar : string -> bool;
  UTC_date_grammar : string -> bool
}.

(** [Number(v)].  Conversion of arrays and objects goes through
    [ToPrimitive], which is not modelled; the code converts only strings and
    numbers. *)
Definition Number `{Runtime} (v : Value) : JSNumber :=
  match v with
  | VUndefined => NaN
  | VNull => Finite 0 0
  | VBoolean b => if b then Finite 1 0 else Finite 0 0
  | VNumber n => n
  | VString s => Number_of_string s
  | VArray _ | VObject _ => NaN
  end.

(** A [Date] object: its time value, [None] for an invalid date. *)
Definition Date : Type := option Z.

(** [new Date(v)] on a string; the code constructs dates from strings
    only. *)
Definition new_Date `{Runtime} (v : Value) : Date :=
  match v with
  | VString s => Date_parse s
  | _ => None
  end.

Definition toUTCString `{Runtime} (d : Date) : string :=
  match d with
  | Some t => Date_toUTCString t
  | None => "Invalid Date"
  end.

End JS.

Import JS.

Declare Scope result_scope.
Delimit Scope result_scope with result.
Notation "x <- c ;; k" := (bind c (fun x => k))
  (at level 61, c at next level, right associativity) : result_scope.
Local Open Scope result_scope.

(* ================================================================= *)
(** ** Validator primitives *)

Module validator.

(** Modelled from the spec: [utils/validator.ts] ([isNonEmptyString]) is
    not among the sources; section 4.1: true iff v is a string type and
    length > 0. *)
Definition isNonEmptyString (v : Value) : bool :=
  match v with
  | VString s => Nat.ltb 0 (String.length s)
  | _ => false
  end.

(** Modelled from the spec: [utils/validator.ts] ([isNonNullObject]) is
    not among the sources; section 4.1: true iff v is an object type, not
    null, not an array. *)
Definition isNonNullObject (v : Value) : bool :=
  match v with
  | VObject _ => true
  | _ => false
  end.

(** Modelled from the spec: [utils/validator.ts] ([isArray]) is not among
    the sources; section 4.1: true iff v is a sequence container. *)
Definition isArray (v : Value) : bool :=
  match v with
  | VArray _ => true
  | _ => false
  end.

(** Modelled from the spec: [utils/validator.ts] ([isNumber]) is not among
    the sources; section 4.1: true iff v is a numeric type (finite or
    not). *)
Definition isNumber (v : Value) : bool :=
  match v with
  | VNumber _ => true
  | _ => false
  end.

(** Modelled from the spec: [utils/validator.ts] ([isBoolean]) is not
    among the sources; section 4.1: true iff v is a boolean type. *)
Definition isBoolean (v : Value) : bool :=
  match v with
  | VBoolean _ => true
  | _ => false
  end.

(** Modelled from the spec: [utils/validator.ts] ([isISODateString]) is
    not among the sources; section 4.1: true iff v is a string parseable
    under the ISO-8601 extended grammar. *)
Definition isISODateString `{Runtime} (v : Value) : bool :=
  match v with
  | VString s => ISO_date_grammar s
  | _ => false
  end.

(** Modelled from the spec: [utils/validator.ts] ([isUTCDateString]) is
    not among the sources; section 4.1: true iff v is a string parseable
    under the UTC display format. *)
Definition isUTCDateString `{Runtime} (v : Value) : bool :=
  match v with
  | VString s => UTC_date_grammar s
  | _ => false
  end.

End validator.

(** [throw new FirebaseRemoteConfigError('invalid-argument', message)]. *)
Definition invalid_argument {A : Type} (message : string) : Result A :=
  Throw (FirebaseRemoteConfigError "invalid-argument" message).

(** [typeof v !== 'undefined']. *)
Definition defined (v : Value) : bool := negb (typeof v =? "undefined").

(* ================================================================= *)
(** ** VersionImpl *)

Module VersionImpl.

(** The instance fields; a field never assigned reads as [undefined]. *)
Record t : Type := mk {
  versionNumber : Value;
  updateTime : Value;
  updateOrigin : Value;
  updateType : Value;
  updateUser : Value;
  description : Value;
  rollbackSource : Value;
  isLegacy : Value
}.

(** The shape shared by six of the field blocks of the constructor:
    [if (typeof version.k !== 'undefined') { if (!check(version.k)) throw
    ...; this.k = version.k; }]. *)
Definition optional_field (version : Value) (k : string)
    (check : Value -> bool) (message : string) : Result Value :=
  if defined (get version k) then
    if negb (check (get version k)) then invalid_argument message
    else Ok (get version k)
  else Ok VUndefined.

Section Constructor.
Context `{Runtime}.

(** Lines 286-299. *)
Definition init_versionNumber (version : Value) : Result Value :=
  if defined (get version "versionNumber") then
    if negb (validator.isNonEmptyString (get version "versionNumber")) &&
       negb (validator.isNumber (get version "versionNumber")) then
      invalid_argument
        "Version number must be a non-empty string in int64 format or a number"
    else if negb (Number_isInteger (Number (get version "versionNumber"))) then
      invalid_argument
        "Version number must be an integer or a string in int64 format"
    else Ok (get version "versionNumber")
  else Ok VUndefined.

(** Lines 358-369: the field is assigned in the ISO branch only. *)
Definition init_updateTime (version : Value) : Result Value :=
  if defined (get version "updateTime") then
    if negb (validator.isISODateString (get version "updateTime")) &&
       negb (validator.isUTCDateString (get version "updateTime")) then
      invalid_argument "Version update time must be a valid date string"
    else if validator.isISODateString (get version "updateTime") then
      Ok (VString (toUTCString (new_Date (get version "updateTime"))))
    else Ok VUndefined
  else Ok VUndefined.

(** [new VersionImpl(version)], lines 279-370. *)
Definition new (version : Value) : Result t :=
  if negb (validator.isNonNullObject version) then
    invalid_argument
      ("Invalid Remote Config version instance: " ++ JSON_stringify version)
  else
    versionNumber <- init_versionNumber version ;;
    updateOrigin <- optional_field version "updateOrigin"
      validator.isNonEmptyString
      "Version update origin must be a non-empty string" ;;
    updateType <- optional_field version "updateType"
      validator.isNonEmptyString
      "Version update type must be a non-empty string" ;;
    updateUser <- optional_field version "updateUser"
      validator.isNonNullObject
      "Version update user must be a non-null object" ;;
    description <- optional_field version "description"
      validator.isNonEmptyString
      "Version description must be a non-empty string" ;;
    rollbackSource <- optional_field version "rollbackSource"
      validator.isNonEmptyString
      "Version rollback source must be a non-empty string" ;;
    isLegacy <- optional_field version "isLegacy"
      validator.isBoolean
      "Version.isLegacy must be a boolean" ;;
    updateTime <- init_updateTime version ;;
    Ok (mk versionNumber updateTime updateOrigin updateType updateUser
           description rollbackSource isLegacy).

End Constructor.

(** [toJSON()], lines 375-386. *)
Definition toJSON (this : t) : Value :=
  VObject
    [ ("versionNumber", versionNumber this);
      ("updateOrigin", updateOrigin this);
      ("updateType", updateType this);
      ("updateUser", updateUser this);
      ("description", description this);
      ("rollbackSource", rollbackSource this);
      ("isLegacy", isLegacy this);
      ("updateTime", updateTime this) ].

(** An instance as a value that is passed around and read by property
    access: the object carrying the instance fields. *)
Definition instance (this : t) : Value :=
  VObject
    [ ("versionNumber", versionNumber this);
      ("updateTime", updateTime this);
      ("updateOrigin", updateOrigin this);
      ("updateType", updateType this);
      ("updateUser", updateUser this);
      ("description", description this);
      ("rollbackSource", rollbackSource this);
      ("isLegacy", isLegacy this) ].

(** The members of the two string-literal union types, lines 270-273. *)
Definition updateOrigin_members : list string :=
  [ "REMOTE_CONFIG_UPDATE_ORIGIN_UNSPECIFIED"; "CONSOLE"; "REST_API";
    "ADMIN_SDK_NODE" ].

Definition updateType_members : list string :=
  [ "REMOTE_CONFIG_UPDATE_TYPE_UNSPECIFIED"; "INCREMENTAL_UPDATE";
    "FORCED_UPDATE"; "ROLLBACK" ].

End VersionImpl.

(* ================================================================= *)
(** ** RemoteConfigTemplateImpl *)

Module RemoteConfigTemplateImpl.

Record t : Type := mk {
  parameters : Value;
  parameterGroups : Value;
  conditions : Value;
  etagInternal : Value;
  version : option VersionImpl.t
}.

Section Constructor.
Context `{Runtime}.

(** Lines 203-212. *)
Definition init_parameters (config : Value) : Result Value :=
  if defined (get config "parameters") then
    if negb (validator.isNonNullObject (get config "parameters")) then
      invalid_argument "Remote Config parameters must be a non-null object"
    else Ok (get config "parameters")
  else Ok (VObject []).

(** Lines 214-223. *)
Definition init_parameterGroups (config : Value) : Result Value :=
  if defined (get config "parameterGroups") then
    if negb (validator.isNonNullObject (get config "parameterGroups")) then
      invalid_argument
        "Remote Config parameter groups must be a non-null object"
    else Ok (get config "parameterGroups")
  else Ok (VObject []).

(** Lines 225-234. *)
Definition init_conditions (config : Value) : Result Value :=
  if defined (get config "conditions") then
    if negb (validator.isArray (get config "conditions")) then
      invalid_argument "Remote Config conditions must be an array"
    else Ok (get config "conditions")
  else Ok (VArray []).

(** Lines 236-238. *)
Definition init_version (config : Value) : Result (option VersionImpl.t) :=
  if defined (get config "version") then
    v <- VersionImpl.new (get config "version") ;; Ok (Some v)
  else Ok None.

(** [new RemoteConfigTemplateImpl(config)], lines 193-239. *)
Definition new (config : Value) : Result t :=
  if negb (validator.isNonNullObject config) ||
     negb (validator.isNonEmptyString (get config "etag")) then
    invalid_argument
      ("Invalid Remote Config template: " ++ JSON_stringify config)
  else
    let etagInternal := get config "etag" in
    parameters <- init_parameters config ;;
    parameterGroups <- init_parameterGroups config ;;
    conditions <- init_conditions config ;;
    version <- init_version config ;;
    Ok (mk parameters parameterGroups conditions etagInternal version).

End Constructor.

(** The accessor [get etag()], lines 246-248. *)
Definition etag (this : t) : Value := etagInternal this.

(** [this.version] as a value: the instance, or [undefined]. *)
Definition version_value (this : t) : Value :=
  match version this with
  | Some v => VersionImpl.instance v
  | None => VUndefined
  end.

(** [toJSON()], lines 253-261. *)
Definition toJSON (this : t) : Value :=
  VObject
    [ ("conditions", conditions this);
      ("parameters", parameters this);
      ("parameterGroups", parameterGroups this);
      ("etag", etag this);
      ("version", version_value this) ].




(** Writing an own data property: it keeps its place if it exists and is
    added otherwise. *)
Fixpoint put (k : string) (v : Value) (own : list (string * Value))
    : list (string * Value) :=
  match own with
  | [] => [(k, v)]
  | (k', v') :: own' =>
      if k' =? k then (k, v) :: own' else (k', v') :: put k v own'
  end.





End RemoteConfigTemplateImpl.

(* ================================================================= *)
(** ** RemoteConfig *)

Module RemoteConfig.

(** The raw answer of the transport client to [listVersions]: [versions]
    is [None] when the field is absent (or null), [nextPageToken] is
    whatever the response carried. *)
Record ListVersionsResponse : Type := {
  response_versions : option (list Value);
  response_nextPageToken : Value
}.

Record ListVersionsResult : Type := {
  versions : list VersionImpl.t;
  nextPageToken : Value
}.

Section Facade.
Context `{Runtime}.

(** The transport client's [listVersions], a black box that settles with a
    response or rejects. *)
Variable ListVersionsOptions : Type.
Variable client_listVersions :
  option ListVersionsOptions -> Result ListVersionsResponse.

(** [listVersions(options)], lines 144-152. *)
Definition listVersions (options : option ListVersionsOptions)
    : Result ListVersionsResult :=
  listVersionsResponse <- client_listVersions options ;;
  match response_versions listVersionsResponse with
  | Some vs =>
      wrapped <- Array_map VersionImpl.new vs ;;
      Ok {| versions := wrapped;
            nextPageToken := response_nextPageToken listVersionsResponse |}
  | None =>
      Ok {| versions := [];
            nextPageToken := response_nextPageToken listVersionsResponse |}
  end.

(** [createTemplateFromJSON(json)], lines 161-179. *)
Definition createTemplateFromJSON (json : Value)
    : Result RemoteConfigTemplateImpl.t :=
  if negb (validator.isNonEmptyString json) then
    invalid_argument "JSON string must be a valid non-empty string"
  else
    match JSON_parse (chars json) with
    | inl template => RemoteConfigTemplateImpl.new template
    | inr e =>
        invalid_argument
          ("Failed to parse the JSON string: " ++ chars json ++ ". " ++ e)
    end.

End Facade.

(** The optional argument of [publishTemplate]. *)
Record PublishOptions : Type := { force : bool }.

Section TemplateOperations.
Context `{Runtime}.

(** The transport client's five template requests; each settles with the
    raw template of the response or rejects.  A version number is a number
    or a string, a template is whatever the caller passes. *)
Variable client_getTemplate : Result Value.
Variable client_getTemplateAtVersion : Value -> Result Value.
Variable client_validateTemplate : Value -> Result Value.
Variable client_publishTemplate : Value -> option PublishOptions -> Result Value.
Variable client_rollback : Value -> Result Value.

(** [getTemplate()], lines 69-74. *)
Definition getTemplate : Result RemoteConfigTemplateImpl.t :=
  templateResponse <- client_getTemplate ;;
  RemoteConfigTemplateImpl.new templateResponse.

(** [getTemplateAtVersion(versionNumber)], lines 83-88. *)
Definition getTemplateAtVersion (versionNumber : Value)
    : Result RemoteConfigTemplateImpl.t :=
  templateResponse <- client_getTemplateAtVersion versionNumber ;;
  RemoteConfigTemplateImpl.new templateResponse.

(** [validateTemplate(template)], lines 97-102. *)
Definition validateTemplate (template : Value)
    : Result RemoteConfigTemplateImpl.t :=
  templateResponse <- client_validateTemplate template ;;
  RemoteConfigTemplateImpl.new templateResponse.

(** [publishTemplate(template, options)], lines 112-117. *)
Definition publishTemplate (template : Value) (options : option PublishOptions)
    : Result RemoteConfigTemplateImpl.t :=
  templateResponse <- client_publishTemplate template options ;;
  RemoteConfigTemplateImpl.new templateResponse.

(** [rollback(versionNumber)], lines 128-133. *)
Definition rollback (versionNumber : Value)
    : Result RemoteConfigTemplateImpl.t :=
  templateResponse <- client_rollback versionNumber ;;
  RemoteConfigTemplateImpl.new templateResponse.

End TemplateOperations.

End RemoteConfig.

(* ================================================================= *)
(** ** A reference runtime

    An executable [Runtime] covering the part of the built-ins that
    the examples exercise: [Number] on the numeric string literals of the
    language, [JSON.parse] and [JSON.stringify] on JSON
    text, and [Date] on the two formats that [toISOString] and [toUTCString]
    print (four-digit years).  Strings are sequences of bytes, read as
    UTF-8. *)

Module Reference.

Local Open Scope Z_scope.

(** *** Text *)

Definition decimal (z : Z) : string :=
  NilZero.string_of_uint (N.to_uint (Z.to_N z)).

(** The value of a non-empty string of decimal digits. *)
Definition digits (s : string) : option Z :=
  option_map Z.of_uint (NilZero.uint_of_string s).

Fixpoint zeros (n : nat) : string :=
  match n with
  | O => EmptyString
  | S n' => String "0"%char (zeros n')
  end.

(** [z] in decimal, padded with zeros on the left to [width] digits. *)
Definition padded (width : nat) (z : Z) : string :=
  let d := decimal z in
  (zeros (width - String.length d) ++ d)%string.

Definition is_digit (c : ascii) : bool :=
  (48 <=? Z.of_nat (nat_of_ascii c)) && (Z.of_nat (nat_of_ascii c) <=? 57).

(** *** Dates: the proleptic Gregorian calendar over days since the epoch *)

Definition msPerDay : Z := 86400000.

Definition days_from_civil (y m d : Z) : Z :=
  let y' := if m <=? 2 then y - 1 else y in
  let era := y' / 400 in
  let yoe := y' - era * 400 in
  let doy := (153 * (if 2 <? m then m - 3 else m + 9) + 2) / 5 + d - 1 in
  let doe := yoe * 365 + yoe / 4 - yoe / 100 + doy in
  era * 146097 + doe - 719468.

Definition civil_from_days (days : Z) : Z * Z * Z :=
  let z := days + 719468 in
  let era := z / 146097 in
  let doe := z - era * 146097 in
  let yoe := (doe - doe / 1460 + doe / 36524 - doe / 146096) / 365 in
  let doy := doe - (365 * yoe + yoe / 4 - yoe / 100) in
  let mp := (5 * doy + 2) / 153 in
  let d := doy - (153 * mp + 2) / 5 + 1 in
  let m := if mp <? 10 then mp + 3 else mp - 9 in
  ((if m <=? 2 then yoe + era * 400 + 1 else yoe + era * 400), m, d).

Definition MakeTime (h mi s ms : Z) : Z :=
  ((h * 60 + mi) * 60 + s) * 1000 + ms.

Definition day_names : list string :=
  [ "Sun"; "Mon"; "Tue"; "Wed"; "Thu"; "Fri"; "Sat" ]%string.

Definition month_names : list string :=
  [ "Jan"; "Feb"; "Mar"; "Apr"; "May"; "Jun";
    "Jul"; "Aug"; "Sep"; "Oct"; "Nov"; "Dec" ]%string.

Fixpoint index_of (s : string) (names : list string) : option Z :=
  match names with
  | [] => None
  | n :: names' =>
      if (n =? s)%string then Some 0
      else option_map Z.succ (index_of s names')
  end.

Definition year_text (y : Z) : string :=
  if (0 <=? y) && (y <=? 9999) then padded 4 y
  else if y <? 0 then ("-" ++ padded 6 (- y))%string
  else ("+" ++ padded 6 y)%string.

(** [Date.prototype.toISOString] of a valid time value. *)
Definition toISOString (t : Z) : string :=
  let '(y, m, d) := civil_from_days (t / msPerDay) in
  let r := t mod msPerDay in
  (year_text y ++ "-" ++ padded 2 m ++ "-" ++ padded 2 d ++ "T" ++
   padded 2 (r / 3600000) ++ ":" ++ padded 2 (r / 60000 mod 60) ++ ":" ++
   padded 2 (r / 1000 mod 60) ++ "." ++ padded 3 (r mod 1000) ++ "Z")%string.

(** [Date.prototype.toUTCString] of a valid time value. *)
Definition toUTCString (t : Z) : string :=
  let '(y, m, d) := civil_from_days (t / msPerDay) in
  let r := t mod msPerDay in
  (nth (Z.to_nat ((t / msPerDay + 4) mod 7)) day_names EmptyString ++ ", " ++
   padded 2 d ++ " " ++ nth (Z.to_nat (m - 1)) month_names EmptyString ++ " " ++
   (if (y <? 0)%Z then "-" ++ padded 4 (- y) else padded 4 y) ++ " " ++
   padded 2 (r / 3600000) ++ ":" ++ padded 2 (r / 60000 mod 60) ++ ":" ++
   padded 2 (r / 1000 mod 60) ++ " GMT")%string.

Definition within (lo hi : Z) (x : option Z) : option Z :=
  match x with
  | Some v => if (lo <=? v) && (v <=? hi) then Some v else None
  | None => None
  end.

Definition field (s : string) (start len : nat) (lo hi : Z) : option Z :=
  within lo hi (digits (substring start len s)).

(** [YYYY-MM-DDTHH:mm:ss.sssZ]. *)
Definition parse_ISO (s : string) : option Z :=
  if negb (Nat.eqb (String.length s) 24) then None
  else if negb ((substring 4 1 s ++ substring 7 1 s ++ substring 10 1 s ++
                 substring 13 1 s ++ substring 16 1 s ++ substring 19 1 s ++
                 substring 23 1 s =? "--T::.Z")%string) then None
  else
    match field s 0 4 0 9999, field s 5 2 1 12, field s 8 2 1 31,
          field s 11 2 0 23, field s 14 2 0 59, field s 17 2 0 59,
          field s 20 3 0 999 with
    | Some y, Some m, Some d, Some h, Some mi, Some sec, Some ms =>
        Some (days_from_civil y m d * msPerDay + MakeTime h mi sec ms)
    | _, _, _, _, _, _, _ => None
    end.

(** [Www, DD Mon YYYY HH:mm:ss GMT]; the day name is read and ignored. *)
Definition parse_UTC (s : string) : option Z :=
  if negb (Nat.eqb (String.length s) 29) then None
  else if negb ((substring 3 2 s ++ substring 7 1 s ++ substring 11 1 s ++
                 substring 16 1 s ++ substring 19 1 s ++ substring 22 1 s ++
                 substring 25 4 s =? ",    :: GMT")%string) then None
  else
    match index_of (substring 0 3 s) day_names,
          field s 5 2 1 31, index_of (substring 8 3 s) month_names,
          field s 12 4 0 9999, field s 17 2 0 23, field s 20 2 0 59,
          field s 23 2 0 59 with
    | Some _, Some d, Some m, Some y, Some h, Some mi, Some sec =>
        Some (days_from_civil y (m + 1) d * msPerDay + MakeTime h mi sec 0)
    | _, _, _, _, _, _, _ => None
    end.

(** [Date.parse] on the two formats. *)
Definition Date_parse (s : string) : option Z :=
  match parse_ISO s with
  | Some t => Some t
  | None => parse_UTC s
  end.

(** A string is in a date format when it is what the date it denotes
    prints as in that format. *)
Definition is_ISO (s : string) : bool :=
  match Date_parse s with
  | Some t => (toISOString t =? s)%string
  | None => false
  end.

Definition is_UTC (s : string) : bool :=
  match Date_parse s with
  | Some t => (toUTCString t =? s)%string
  | None => false
  end.

(** *** Numbers *)

Fixpoint strip_zeros (p : positive) (e : Z) : positive * Z :=
  match p with
  | xO p' => strip_zeros p' (e + 1)
  | _ => (p, e)
  end.

(** The value [m * 2^e] ([m >= 0]) in normal form: an integer has exponent
    0, any other value an odd mantissa. *)
Definition normal (negative : bool) (m e : Z) : JSNumber :=
  match m with
  | Zpos p =>
      let '(p', e') := strip_zeros p e in
      let v := if 0 <=? e' then Zpos p' * 2 ^ e' else Zpos p' in
      Finite (if negative then - v else v) (if 0 <=? e' then 0 else e')
  | _ => Finite 0 0
  end.

Definition div_nearest_even (n d : Z) : Z :=
  let q := n / d in
  let r := n mod d in
  if 2 * r <? d then q
  else if d <? 2 * r then q + 1
  else if Z.even q then q else q + 1.

(** The binary64 value nearest to [p / q], for [0 <= p] and [0 < q]. *)
Definition binary64 (negative : bool) (p q : Z) : JSNumber :=
  if p <=? 0 then Finite 0 0
  else
    let scaled e := if e <? 0 then (p * 2 ^ (- e), q) else (p, q * 2 ^ e) in
    let e0 := Z.log2 p - Z.log2 q - 53 in
    let e1 := if fst (scaled e0) / snd (scaled e0) <? 2 ^ 53 then e0 else e0 + 1 in
    let e := Z.max e1 (-1074) in
    let m := div_nearest_even (fst (scaled e)) (snd (scaled e)) in
    if (0 <=? e) && (2 ^ 1024 <=? m * 2 ^ e) then Infinity negative
    else normal negative m e.

(** The binary64 value nearest to [n * 10^k]. *)
Definition decimal64 (negative : bool) (n k : Z) (ndigits : Z) : JSNumber :=
  if n =? 0 then Finite 0 0
  else if 310 <? k + ndigits then Infinity negative
  else if k + ndigits <? -330 then Finite 0 0
  else if 0 <=? k then binary64 negative (n * 10 ^ k) 1
  else binary64 negative n (10 ^ (- k)).

Definition JSNumber_eqb (a b : JSNumber) : bool :=
  match a, b with
  | NaN, NaN => true
  | Infinity x, Infinity y => Bool.eqb x y
  | Finite m e, Finite m' e' => (m =? m') && (e =? e')
  | _, _ => false
  end.

Fixpoint span (f : ascii -> bool) (s : string) : string * string :=
  match s with
  | String c s' =>
      if f c then let '(a, b) := span f s' in (String c a, b)
      else (EmptyString, s)
  | EmptyString => (EmptyString, EmptyString)
  end.

Definition code (c : ascii) : Z := Z.of_nat (nat_of_ascii c).

Definition is_space (c : ascii) : bool :=
  ((9 <=? code c) && (code c <=? 13)) || (code c =? 32).

Fixpoint rev_string (s acc : string) : string :=
  match s with
  | String c s' => rev_string s' (String c acc)
  | EmptyString => acc
  end.

Definition trim (s : string) : string :=
  let s1 := snd (span is_space s) in
  rev_string (snd (span is_space (rev_string s1 EmptyString))) EmptyString.

(** The value of a digit in a base up to 16, if it is one. *)
Definition digit_in (base : Z) (c : ascii) : option Z :=
  let v :=
    if (48 <=? code c) && (code c <=? 57) then code c - 48
    else if (97 <=? code c) && (code c <=? 102) then code c - 87
    else if (65 <=? code c) && (code c <=? 70) then code c - 55
    else 16 in
  if v <? base then Some v else None.

Fixpoint digits_in (base : Z) (s : string) (acc : Z) : option Z :=
  match s with
  | EmptyString => Some acc
  | String c s' =>
      match digit_in base c with
      | Some v => digits_in base s' (acc * base + v)
      | None => None
      end
  end.

Definition signed (s : string) : bool * string :=
  match s with
  | String "-" s' => (true, s')
  | String "+" s' => (false, s')
  | _ => (false, s)
  end.

(** An exponent part, or nothing: [Some 0] on the empty string. *)
Definition exponent_part (s : string) : option Z :=
  match s with
  | EmptyString => Some 0
  | String c s' =>
      if ((c =? "e") || (c =? "E"))%char then
        let '(neg, d) := signed s' in
        option_map (fun x => if neg then - x else x) (digits d)
      else None
  end.

(** An unsigned decimal literal [digits . digits exponent] as the pair of
    its digit string and power of ten. *)
Definition decimal_literal (s : string) : option (string * Z) :=
  let '(ip, r1) := span is_digit s in
  let '(fp, r2) :=
    match r1 with
    | String "." r => span is_digit r
    | _ => (EmptyString, r1)
    end in
  if Nat.eqb (String.length ip + String.length fp) 0 then None
  else
    match exponent_part r2 with
    | Some x => Some ((ip ++ fp)%string, x - Z.of_nat (String.length fp))
    | None => None
    end.

Definition decimal_value (negative : bool) (s : string) : JSNumber :=
  match decimal_literal s with
  | Some (ds, k) =>
      match digits ds with
      | Some n => decimal64 negative n k (Z.of_nat (String.length ds))
      | None => NaN
      end
  | None => NaN
  end.

Definition radix_literal (base : Z) (s : string) : JSNumber :=
  match s with
  | EmptyString => NaN
  | _ =>
      match digits_in base s 0 with
      | Some n => binary64 false n 1
      | None => NaN
      end
  end.

(** [Number(s)]: the StringNumericLiteral grammar. *)
Definition Number_of_string (s : string) : JSNumber :=
  match trim s with
  | EmptyString => Finite 0 0
  | String "0" (String "x" r) | String "0" (String "X" r) => radix_literal 16 r
  | String "0" (String "o" r) | String "0" (String "O" r) => radix_literal 8 r
  | String "0" (String "b" r) | String "0" (String "B" r) => radix_literal 2 r
  | t =>
      let '(neg, r) := signed t in
      if (r =? "Infinity")%string then Infinity neg
      else decimal_value neg r
  end.

(** The shortest decimal that reads back as the value [p / q]: its digits and
    the position of the decimal point after them. *)
Fixpoint magnitude_below (fuel : nat) (p q : Z) (j : Z) : Z :=
  match fuel with
  | O => j
  | S fuel' => if q <=? p * 10 ^ j then j else magnitude_below fuel' p q (j + 1)
  end.

Definition magnitude (p q : Z) : Z :=
  if q <=? p then Z.of_nat (String.length (decimal (p / q)))
  else 1 - magnitude_below 400 p q 1.

Definition candidate (p q n k : Z) : Z * Z :=
  let s := if 0 <=? k - n then div_nearest_even (p * 10 ^ (k - n)) q
           else div_nearest_even p (q * 10 ^ (n - k)) in
  if s =? 10 ^ k then (10 ^ (k - 1), n + 1) else (s, n).

Fixpoint shortest (fuel : nat) (v : JSNumber) (p q n k : Z) : Z * Z * Z :=
  let '(s, n') := candidate p q n k in
  match fuel with
  | O => (s, n', k)
  | S fuel' =>
      if JSNumber_eqb (decimal64 false s (n' - k) k) v then (s, n', k)
      else shortest fuel' v p q n (k + 1)
  end.

(** [Number::toString] of a positive finite value. *)
Definition positive_text (m e : Z) : string :=
  let p := if 0 <=? e then m * 2 ^ e else m in
  let q := if 0 <=? e then 1 else 2 ^ (- e) in
  let '(s, n, k) := shortest 16 (normal false m e) p q (magnitude p q) 1 in
  let ds := decimal s in
  (if (k <=? n) && (n <=? 21) then ds ++ zeros (Z.to_nat (n - k))
   else if (0 <? n) && (n <=? 21) then
     substring 0 (Z.to_nat n) ds ++ "." ++
     substring (Z.to_nat n) (Z.to_nat (k - n)) ds
   else if (-6 <? n) && (n <=? 0) then "0." ++ zeros (Z.to_nat (- n)) ++ ds
   else
     substring 0 1 ds ++
     (if k =? 1 then EmptyString else "." ++ substring 1 (Z.to_nat (k - 1)) ds) ++
     "e" ++ (if 0 <=? n - 1 then "+" else "-") ++ decimal (Z.abs (n - 1))).

Definition Number_toString (x : JSNumber) : string :=
  match x with
  | NaN => "NaN"
  | Infinity neg => if neg then "-Infinity" else "Infinity"
  | Finite m e =>
      if m =? 0 then "0"
      else if m <? 0 then ("-" ++ positive_text (- m) e)%string
      else positive_text m e
  end.

(** *** JSON text *)

Definition dquote : ascii := "034"%char.

Definition hex_digit (v : Z) : ascii :=
  ascii_of_nat (Z.to_nat (if v <? 10 then 48 + v else 87 + v)).

(** QuoteJSONString. *)
Fixpoint quote_body (s : string) : string :=
  match s with
  | EmptyString => String dquote EmptyString
  | String c s' =>
      (if (c =? dquote)%char then String "\" (String dquote EmptyString)
       else if (c =? "\")%char then "\\"
       else if code c =? 8 then "\b"
       else if code c =? 9 then "\t"
       else if code c =? 10 then "\n"
       else if code c =? 12 then "\f"
       else if code c =? 13 then "\r"
       else if code c <? 32 then
         "\u00" ++ String (hex_digit (code c / 16))
                     (String (hex_digit (code c mod 16)) EmptyString)
       else String c EmptyString) ++ quote_body s'
  end.

Definition quote (s : string) : string := String dquote (quote_body s).

Definition join (parts : list string) : string := String.concat "," parts.

(** SerializeJSONProperty: [None] where the result is [undefined]. *)
Fixpoint serialize (v : Value) : option string :=
  match v with
  | VUndefined => None
  | VNull => Some "null"
  | VBoolean b => Some (if b then "true" else "false")
  | VNumber n =>
      Some (match n with Finite _ _ => Number_toString n | _ => "null" end)
  | VString s => Some (quote s)
  | VArray vs =>
      Some ("[" ++
            join (map (fun x => match serialize x with
                                | Some t => t
                                | None => "null"
                                end) vs) ++ "]")
  | VObject ps =>
      Some ("{" ++
            join ((fix members (ps : list (string * Value)) : list string :=
                     match ps with
                     | [] => []
                     | (k, x) :: ps' =>
                         match serialize x with
                         | Some t => (quote k ++ ":" ++ t) :: members ps'
                         | None => members ps'
                         end
                     end) ps) ++ "}")
  end.

(** [JSON.stringify(v)] interpolated in a template literal. *)
Definition JSON_stringify (v : Value) : string :=
  match serialize v with
  | Some t => t
  | None => "undefined"
  end.

(** The parser returns what is left of the text, after a value or at the
    place it gave up. *)
Inductive Parsed (A : Type) : Type :=
| Accept (a : A) (rest : string)
| Reject (rest : string).

Arguments Accept {A} a rest.
Arguments Reject {A} rest.

Definition is_json_space (c : ascii) : bool :=
  (code c =? 32) || (code c =? 9) || (code c =? 10) || (code c =? 13).

Definition skip (s : string) : string := snd (span is_json_space s).

(** The rest of a keyword whose first character has been read. *)
Fixpoint keyword (expected : string) (v : Value) (s : string) : Parsed Value :=
  match expected with
  | EmptyString => Accept v s
  | String c expected' =>
      match s with
      | String c' s' => if (c =? c')%char then keyword expected' v s' else Reject s
      | EmptyString => Reject s
      end
  end.

(** A code unit as UTF-8. *)
Definition utf8 (u : Z) : string :=
  let byte x := ascii_of_nat (Z.to_nat x) in
  if u <? 128 then String (byte u) EmptyString
  else if u <? 2048 then
    String (byte (192 + u / 64)) (String (byte (128 + u mod 64)) EmptyString)
  else
    String (byte (224 + u / 4096))
      (String (byte (128 + u / 64 mod 64))
         (String (byte (128 + u mod 64)) EmptyString)).

Definition simple_escape (c : ascii) : option ascii :=
  if ((c =? dquote) || (c =? "\") || (c =? "/"))%char then Some c
  else if (c =? "b")%char then Some (ascii_of_nat 8)
  else if (c =? "f")%char then Some (ascii_of_nat 12)
  else if (c =? "n")%char then Some (ascii_of_nat 10)
  else if (c =? "r")%char then Some (ascii_of_nat 13)
  else if (c =? "t")%char then Some (ascii_of_nat 9)
  else None.

(** A string literal after its opening quote. *)
Fixpoint string_literal (fuel : nat) (s : string) (acc : string) : Parsed string :=
  match fuel, s with
  | S fuel', String c s' =>
      if (c =? dquote)%char then Accept (rev_string acc EmptyString) s'
      else if code c <? 32 then Reject s
      else if (c =? "\")%char then
        match s' with
        | String "u" s'' =>
            match digits_in 16 (substring 0 4 s'') 0 with
            | Some u =>
                if Nat.eqb (String.length (substring 0 4 s'')) 4 then
                  string_literal fuel' (substring 4 (String.length s'') s'')
                    (rev_string (utf8 u) acc)
                else Reject EmptyString
            | None => Reject (snd (span (fun x => match digit_in 16 x with
                                                   | Some _ => true
                                                   | None => false
                                                   end) s''))
            end
        | String e s'' =>
            match simple_escape e with
            | Some x => string_literal fuel' s'' (String x acc)
            | None => Reject s'
            end
        | EmptyString => Reject s'
        end
      else string_literal fuel' s' (String c acc)
  | _, _ => Reject s
  end.

(** A number literal: [-? int frac? exp?], no leading zeros. *)
Definition number_literal (s : string) : Parsed JSNumber :=
  let '(neg, r0) := match s with
                    | String "-" r => (true, r)
                    | _ => (false, s)
                    end in
  let '(ip, r1) := span is_digit r0 in
  match ip with
  | EmptyString => Reject r0
  | String "0" (String _ _) => Reject (substring 1 (String.length r0) r0)
  | _ =>
      let '(fp, r2, bad_frac) :=
        match r1 with
        | String "." r =>
            let '(f, r') := span is_digit r in
            (f, r', Nat.eqb (String.length f) 0)
        | _ => (EmptyString, r1, false)
        end in
      if bad_frac then Reject r2
      else
        let '(ex, r3, bad_exp) :=
          match r2 with
          | String c r =>
              if ((c =? "e") || (c =? "E"))%char then
                let '(sg, r') := match r with
                                 | String "-" x => (true, x)
                                 | String "+" x => (false, x)
                                 | _ => (false, r)
                                 end in
                let '(d, r'') := span is_digit r' in
                match digits d with
                | Some x => (if sg then - x else x, r'', false)
                | None => (0, r'', true)
                end
              else (0, r2, false)
          | EmptyString => (0, r2, false)
          end in
        if bad_exp then Reject r3
        else
          match digits (ip ++ fp) with
          | Some n =>
              Accept (decimal64 neg n (ex - Z.of_nat (String.length fp))
                        (Z.of_nat (String.length (ip ++ fp)))) r3
          | None => Reject r0
          end
  end.

(** Defining a property: a repeated key keeps its place and takes the new
    value. *)
Fixpoint define (k : string) (v : Value) (ps : list (string * Value))
    : list (string * Value) :=
  match ps with
  | [] => [(k, v)]
  | (k', v') :: ps' =>
      if (k' =? k)%string then (k, v) :: ps' else (k', v') :: define k v ps'
  end.

Fixpoint value (fuel : nat) (s : string) : Parsed Value :=
  match fuel with
  | O => Reject s
  | S fuel' =>
      match skip s with
      | EmptyString => Reject EmptyString
      | String c r =>
          if (c =? "{")%char then
            match skip r with
            | String "}" r' => Accept (VObject []) r'
            | _ => members fuel' r []
            end
          else if (c =? "[")%char then
            match skip r with
            | String "]" r' => Accept (VArray []) r'
            | _ => elements fuel' r []
            end
          else if (c =? dquote)%char then
            match string_literal (String.length r) r EmptyString with
            | Accept t r' => Accept (VString t) r'
            | Reject r' => Reject r'
            end
          else if (c =? "t")%char then keyword "rue" (VBoolean true) r
          else if (c =? "f")%char then keyword "alse" (VBoolean false) r
          else if (c =? "n")%char then keyword "ull" VNull r
          else if (c =? "-")%char || is_digit c then
            match number_literal (String c r) with
            | Accept n r' => Accept (VNumber n) r'
            | Reject r' => Reject r'
            end
          else Reject (String c r)
      end
  end
with elements (fuel : nat) (s : string) (acc : list Value) : Parsed Value :=
  match fuel with
  | O => Reject s
  | S fuel' =>
      match value fuel' s with
      | Accept v r =>
          match skip r with
          | String "," r' => elements fuel' r' (v :: acc)
          | String "]" r' => Accept (VArray (rev (v :: acc))) r'
          | r' => Reject r'
          end
      | Reject r => Reject r
      end
  end
with members (fuel : nat) (s : string) (acc : list (string * Value)) : Parsed Value :=
  match fuel with
  | O => Reject s
  | S fuel' =>
      match skip s with
      | String "034"%char r =>
          match string_literal (String.length r) r EmptyString with
          | Accept k r1 =>
              match skip r1 with
              | String ":" r2 =>
                  match value fuel' r2 with
                  | Accept v r3 =>
                      match skip r3 with
                      | String "," r4 => members fuel' r4 (define k v acc)
                      | String "}" r4 => Accept (VObject (define k v acc)) r4
                      | r4 => Reject r4
                      end
                  | Reject r3 => Reject r3
                  end
              | r2 => Reject r2
              end
          | Reject r1 => Reject r1
          end
      | r => Reject r
      end
  end.

(** The [SyntaxError] for text rejected with [rest] left over. *)
Definition syntax_error (text rest : string) : string :=
  match rest with
  | EmptyString => "SyntaxError: Unexpected end of JSON input"
  | String c _ =>
      "SyntaxError: Unexpected " ++
      (if (c =? dquote)%char then "string"
       else if (c =? "-")%char || is_digit c then "number"
       else "token " ++ String c EmptyString) ++
      " in JSON at position " ++
      decimal (Z.of_nat (String.length text - String.length rest))
  end.

(** [JSON.parse(text)]. *)
Definition JSON_parse (text : string) : Value + string :=
  match value (2 * String.length text + 2) text with
  | Accept v r =>
      match skip r with
      | EmptyString => inl v
      | r' => inr (syntax_error text r')
      end
  | Reject r => inr (syntax_error text r)
  end.

(** The reference runtime. *)
Definition runtime : Runtime := {|
  JS.Number_of_string := Number_of_string;
  JS.JSON_parse := JSON_parse;
  JS.JSON_stringify := JSON_stringify;
  JS.Date_parse := Date_parse;
  JS.Date_toUTCString := toUTCString;
  JS.ISO_date_grammar := is_ISO;
  JS.UTC_date_grammar := is_UTC
|}.

End Reference.

(* ================================================================= *)
(** ** Properties *)

Local Open Scope string_scope.

(** The text [{"etag":"abc"}] and other quoted texts are built from
    [Reference.dquote]. *)
Definition quoted (s : string) : string :=
  String Reference.dquote s ++ String Reference.dquote EmptyString.

Definition etag_abc_text : string := "{" ++ quoted "etag" ++ ":" ++ quoted "abc" ++ "}".

Definition ISO_sample : string := "2020-06-15T16:45:03.000Z".
Definition UTC_sample : string := "Mon, 15 Jun 2020 16:45:03 GMT".

(** A call fails with [invalid-argument]. *)
Definition fails_invalid_argument {A : Type} (c : Result A) : Prop :=
  exists message, c = Throw (FirebaseRemoteConfigError "invalid-argument" message).

(** Every way a computation of this module built from [invalid_argument]
    fails is an [invalid-argument]. *)
Definition only_invalid_argument {A : Type} (c : Result A) : Prop :=
  forall e, c = Throw e -> fails_invalid_argument c.

(** The Version without any field. *)
Definition empty_version : VersionImpl.t :=
  VersionImpl.mk VUndefined VUndefined VUndefined VUndefined VUndefined
    VUndefined VUndefined VUndefined.

(** The template normalized from
    [{etag: "abc", version: {updateTime: "2020-06-15T16:45:03.000Z"}}]. *)
Definition dated_config : Value :=
  VObject [ ("etag", VString "abc");
            ("version", VObject [("updateTime", VString ISO_sample)]) ].

Definition dated_version : VersionImpl.t :=
  VersionImpl.mk VUndefined (VString UTC_sample) VUndefined VUndefined
    VUndefined VUndefined VUndefined VUndefined.

Definition dated_template : RemoteConfigTemplateImpl.t :=
  RemoteConfigTemplateImpl.mk (VObject []) (VObject []) (VArray [])
    (VString "abc") (Some dated_version).

(** What [JSON.parse] of the reference runtime says of the two texts. *)
Definition not_json_error : string :=
  "SyntaxError: Unexpected token n in JSON at position 1".

(** A transport client for the examples: without options it answers a page
    of two versions, the newer first, and with options a response without
    [versions]. *)
Definition sample_client (options : option unit)
    : Result RemoteConfig.ListVersionsResponse :=
  match options with
  | None =>
      Ok {| RemoteConfig.response_versions :=
              Some [ VObject [ ("versionNumber", VString "7");
                               ("updateTime", VString ISO_sample) ];
                     VObject [ ("versionNumber", VString "6") ] ];
            RemoteConfig.response_nextPageToken := VString "page-2" |}
  | Some _ =>
      Ok {| RemoteConfig.response_versions := None;
            RemoteConfig.response_nextPageToken := VUndefined |}
  end.

(** The field blocks of the Version constructor, in source order. *)
Definition version_blocks `{Runtime} : list (Value -> Result Value) :=
  [ VersionImpl.init_versionNumber;
    (fun version => VersionImpl.optional_field version "updateOrigin"
       validator.isNonEmptyString
       "Version update origin must be a non-empty string");
    (fun version => VersionImpl.optional_field version "updateType"
       validator.isNonEmptyString
       "Version update type must be a non-empty string");
    (fun version => VersionImpl.optional_field version "updateUser"
       validator.isNonNullObject
       "Version update user must be a non-null object");
    (fun version => VersionImpl.optional_field version "description"
       validator.isNonEmptyString
       "Version description must be a non-empty string");
    (fun version => VersionImpl.optional_field version "rollbackSource"
       validator.isNonEmptyString
       "Version rollback source must be a non-empty string");
    (fun version => VersionImpl.optional_field version "isLegacy"
       validator.isBoolean
       "Version.isLegacy must be a boolean");
    VersionImpl.init_updateTime ].

(** What the first block that throws, if any, throws. *)
Fixpoint first_failure {A : Type} (blocks : list (Value -> Result A))
    (input : Value) : option Exception :=
  match blocks with
  | [] => None
  | block :: blocks' =>
      match block input with
      | Ok _ => first_failure blocks' input
      | Throw e => Some e
      end
  end.

(** The properties that the Version constructor reads. *)
Definition version_properties : list string :=
  [ "versionNumber"; "updateOrigin"; "updateType"; "updateUser";
    "description"; "rollbackSource"; "isLegacy"; "updateTime" ].

(** The properties that the template constructor reads. *)
Definition template_properties : list string :=
  [ "etag"; "parameters"; "parameterGroups"; "conditions"; "version" ].

(** A version record with every field of a published version. *)
Definition full_version : Value :=
  VObject [ ("versionNumber", VString "86");
            ("updateOrigin", VString "ADMIN_SDK_NODE");
            ("updateType", VString "INCREMENTAL_UPDATE");
            ("updateUser", VObject [("email", VString "user@example.com")]);
            ("description", VString "production version");
            ("rollbackSource", VString "85");
            ("isLegacy", VBoolean false);
            ("updateTime", VString ISO_sample) ].

(** Transport clients for the examples: one that answers a template with
    an [etag] only, one that rejects. *)
Definition answering_client : Result Value :=
  Ok (VObject [("etag", VString "etag-1")]).

Definition rejecting_client : Result Value :=
  Throw (TransportError "network error").

(** [full_version] normalized. *)
Definition full_version_normalized : VersionImpl.t :=
  VersionImpl.mk (VString "86") (VString UTC_sample)
    (VString "ADMIN_SDK_NODE") (VString "INCREMENTAL_UPDATE")
    (VObject [("email", VString "user@example.com")])
    (VString "production version") (VString "85") (VBoolean false).

(** A version record with a number only, and the template of a response
    that carries it. *)
Definition numbered_version : VersionImpl.t :=
  VersionImpl.mk (VString "86") VUndefined VUndefined VUndefined VUndefined
    VUndefined VUndefined VUndefined.

Definition numbered_config : Value :=
  VObject [ ("etag", VString "abc");
            ("version", VObject [("versionNumber", VString "86")]) ].

Definition numbered_template : RemoteConfigTemplateImpl.t :=
  RemoteConfigTemplateImpl.mk (VObject []) (VObject []) (VArray [])
    (VString "abc") (Some numbered_version).

(** A page of versions whose second entry has a version number that is no
    integer. *)
Definition faulty_response : RemoteConfig.ListVersionsResponse :=
  {| RemoteConfig.response_versions :=
       Some [ VObject [("versionNumber", VString "7")];
              VObject [("versionNumber", VString "6.5")];
              VObject [("versionNumber", VString "5")] ];
     RemoteConfig.response_nextPageToken := VUndefined |}.

Definition faulty_client (options : option unit)
    : Result RemoteConfig.ListVersionsResponse :=
  Ok faulty_response.



Section Objects.

Lemma lookup_filter_other (k k' : string) (ps : list (string * Value)) :
  k <> k' ->
  lookup k' (filter (fun p => negb (fst p =? k)) ps) = lookup k' ps.
Proof.
  intros Hne. induction ps as [|[k0 v0] ps IH]; simpl; [reflexivity|].
  destruct (k0 =? k) eqn:E0; simpl.
  - apply String.eqb_eq in E0. subst k0.
    destruct (k =? k') eqn:E1; [apply String.eqb_eq in E1; contradiction|].
    exact IH.
  - destruct (k0 =? k'); [reflexivity|exact IH].
Qed.

Lemma lookup_filter_same (k : string) (ps : list (string * Value)) :
  lookup k (filter (fun p => negb (fst p =? k)) ps) = VUndefined.
Proof.
  induction ps as [|[k0 v0] ps IH]; simpl; [reflexivity|].
  destruct (k0 =? k) eqn:E0; simpl; [exact IH|].
  rewrite E0. exact IH.
Qed.

Lemma get_delete_other (k k' : string) (o : Value) :
  k <> k' -> get (delete k o) k' = get o k'.
Proof.
  intros Hne. destruct o; simpl; try reflexivity.
  now apply lookup_filter_other.
Qed.

Lemma get_delete_same (k : string) (o : Value) :
  get (delete k o) k = VUndefined.
Proof.
  destruct o; simpl; try reflexivity. apply lookup_filter_same.
Qed.

Lemma isNonNullObject_delete (k : string) (o : Value) :
  validator.isNonNullObject (delete k o) = validator.isNonNullObject o.
Proof. destruct o; reflexivity. Qed.

(** Only an object has a defined property. *)
Lemma defined_get_object (o : Value) (k : string) :
  defined (get o k) = true -> validator.isNonNullObject o = true.
Proof. destruct o; simpl; intros E; solve [reflexivity | discriminate E]. Qed.

End Objects.

Lemma fails_invalid_argument_throw {A : Type} (message : string) :
  fails_invalid_argument (@invalid_argument A message).
Proof. exists message. reflexivity. Qed.

Lemma fails_bind {A B : Type} (c : Result A) (k : A -> Result B) :
  fails_invalid_argument c -> fails_invalid_argument (bind c k).
Proof. intros [m ->]. exists m. reflexivity. Qed.

Create HintDb rc.
#[local] Hint Resolve fails_invalid_argument_throw fails_bind : rc.

Lemma only_bind {A B : Type} (c : Result A) (k : A -> Result B) :
  only_invalid_argument c -> (forall a, only_invalid_argument (k a)) ->
  only_invalid_argument (bind c k).
Proof.
  intros Hc Hk e. destruct c as [a|e0]; simpl.
  - apply Hk.
  - intros _. destruct (Hc e0 eq_refl) as [m Hm].
    exists m. now inversion Hm.
Qed.

Lemma only_Ok {A : Type} (a : A) : only_invalid_argument (Ok a).
Proof. intros e E. discriminate E. Qed.

Lemma only_throw {A : Type} (message : string) :
  only_invalid_argument (@invalid_argument A message).
Proof. intros e _. apply fails_invalid_argument_throw. Qed.

#[local] Hint Resolve only_Ok only_throw : rc.

Ltac only_cases :=
  repeat match goal with
         | |- only_invalid_argument (if ?b then _ else _) => destruct b
         | |- only_invalid_argument (bind _ _) => apply only_bind; [|intros ?]
         | |- only_invalid_argument _ => solve [auto with rc]
         end.

Section VersionFacts.
Context {rt : Runtime}.

Lemma optional_field_only (version : Value) (k : string)
    (check : Value -> bool) (message : string) :
  only_invalid_argument (VersionImpl.optional_field version k check message).
Proof. unfold VersionImpl.optional_field. only_cases. Qed.

Lemma init_versionNumber_only (version : Value) :
  only_invalid_argument (VersionImpl.init_versionNumber version).
Proof. unfold VersionImpl.init_versionNumber. only_cases. Qed.

Lemma init_updateTime_only (version : Value) :
  only_invalid_argument (VersionImpl.init_updateTime version).
Proof. unfold VersionImpl.init_updateTime. only_cases. Qed.

#[local] Hint Resolve optional_field_only init_versionNumber_only
  init_updateTime_only : rc.

(** The version normalizer either succeeds or fails with
    [invalid-argument]. *)
Lemma VersionImpl_new_only (version : Value) :
  only_invalid_argument (VersionImpl.new version).
Proof. unfold VersionImpl.new. only_cases. Qed.

(** Reading another property is unaffected by [delete]. *)
Lemma optional_field_delete_other (version : Value) (k k' : string)
    (check : Value -> bool) (message : string) :
  k' <> k ->
  VersionImpl.optional_field (delete k' version) k check message =
  VersionImpl.optional_field version k check message.
Proof.
  intros Hne. unfold VersionImpl.optional_field.
  now rewrite (get_delete_other k' k version Hne).
Qed.

Lemma optional_field_delete_same (version : Value) (k : string)
    (check : Value -> bool) (message : string) :
  VersionImpl.optional_field (delete k version) k check message = Ok VUndefined.
Proof.
  unfold VersionImpl.optional_field. now rewrite get_delete_same.
Qed.

Lemma init_versionNumber_delete_other (version : Value) (k' : string) :
  k' <> "versionNumber" ->
  VersionImpl.init_versionNumber (delete k' version) =
  VersionImpl.init_versionNumber version.
Proof.
  intros Hne. unfold VersionImpl.init_versionNumber.
  now rewrite (get_delete_other k' "versionNumber" version Hne).
Qed.

Lemma init_versionNumber_delete_same (version : Value) :
  VersionImpl.init_versionNumber (delete "versionNumber" version) = Ok VUndefined.
Proof.
  unfold VersionImpl.init_versionNumber. now rewrite get_delete_same.
Qed.

Lemma init_updateTime_delete_other (version : Value) (k' : string) :
  k' <> "updateTime" ->
  VersionImpl.init_updateTime (delete k' version) =
  VersionImpl.init_updateTime version.
Proof.
  intros Hne. unfold VersionImpl.init_updateTime.
  now rewrite (get_delete_other k' "updateTime" version Hne).
Qed.

Lemma init_updateTime_delete_same (version : Value) :
  VersionImpl.init_updateTime (delete "updateTime" version) = Ok VUndefined.
Proof.
  unfold VersionImpl.init_updateTime. now rewrite get_delete_same.
Qed.

(** What the [updateTime] block does in each of its three cases. *)
Lemma init_updateTime_ISO (version : Value) :
  validator.isISODateString (get version "updateTime") = true ->
  VersionImpl.init_updateTime version =
  Ok (VString (toUTCString (new_Date (get version "updateTime")))).
Proof.
  intros E. unfold VersionImpl.init_updateTime. rewrite E. simpl.
  destruct (get version "updateTime"); simpl in *; try discriminate E.
  reflexivity.
Qed.

Lemma init_updateTime_UTC_only (version : Value) :
  validator.isISODateString (get version "updateTime") = false ->
  validator.isUTCDateString (get version "updateTime") = true ->
  VersionImpl.init_updateTime version = Ok VUndefined.
Proof.
  intros E1 E2. unfold VersionImpl.init_updateTime. rewrite E1, E2. simpl.
  now destruct (defined _).
Qed.

Lemma init_updateTime_neither (version : Value) :
  defined (get version "updateTime") = true ->
  validator.isISODateString (get version "updateTime") = false ->
  validator.isUTCDateString (get version "updateTime") = false ->
  VersionImpl.init_updateTime version =
  invalid_argument "Version update time must be a valid date string".
Proof.
  intros E0 E1 E2. unfold VersionImpl.init_updateTime.
  now rewrite E0, E1, E2.
Qed.

End VersionFacts.

Section VersionNormalizer.
Context {rt : Runtime}.

(** The constructor succeeds exactly when the input is an object and each
    of the eight field blocks does, and the instance holds their results. *)
Lemma VersionImpl_new_Ok (version : Value) (r : VersionImpl.t) :
  VersionImpl.new version = Ok r <->
  validator.isNonNullObject version = true /\
  VersionImpl.init_versionNumber version = Ok (VersionImpl.versionNumber r) /\
  VersionImpl.optional_field version "updateOrigin" validator.isNonEmptyString
    "Version update origin must be a non-empty string"
    = Ok (VersionImpl.updateOrigin r) /\
  VersionImpl.optional_field version "updateType" validator.isNonEmptyString
    "Version update type must be a non-empty string"
    = Ok (VersionImpl.updateType r) /\
  VersionImpl.optional_field version "updateUser" validator.isNonNullObject
    "Version update user must be a non-null object"
    = Ok (VersionImpl.updateUser r) /\
  VersionImpl.optional_field version "description" validator.isNonEmptyString
    "Version description must be a non-empty string"
    = Ok (VersionImpl.description r) /\
  VersionImpl.optional_field version "rollbackSource" validator.isNonEmptyString
    "Version rollback source must be a non-empty string"
    = Ok (VersionImpl.rollbackSource r) /\
  VersionImpl.optional_field version "isLegacy" validator.isBoolean
    "Version.isLegacy must be a boolean"
    = Ok (VersionImpl.isLegacy r) /\
  VersionImpl.init_updateTime version = Ok (VersionImpl.updateTime r).
Proof.
  unfold VersionImpl.new. split.
  - destruct (validator.isNonNullObject version); simpl; [|discriminate].
    repeat match goal with
           | |- context [bind ?c _] =>
               lazymatch c with
               | context [bind] => fail
               | _ => destruct c; simpl; [|discriminate]
               end
           end.
    intros E. injection E as <-. simpl. repeat split; reflexivity.
  - intros (E0 & E1 & E2 & E3 & E4 & E5 & E6 & E7 & E8).
    rewrite E0, E1, E2, E3, E4, E5, E6, E7, E8. simpl. now destruct r.
Qed.

(** When a field block throws, so does the constructor. *)
Lemma VersionImpl_new_not_Ok (version : Value) :
  (forall r, VersionImpl.new version <> Ok r) ->
  fails_invalid_argument (VersionImpl.new version).
Proof.
  intros Hno. destruct (VersionImpl.new version) as [r|e] eqn:E.
  - destruct (Hno r). reflexivity.
  - rewrite <- E. apply (VersionImpl_new_only version e E).
Qed.

Ltac frame_fields H :=
  apply VersionImpl_new_Ok in H;
  destruct H as (F0 & F1 & F2 & F3 & F4 & F5 & F6 & F7 & F8);
  rewrite ?isNonNullObject_delete in F0;
  rewrite ?init_versionNumber_delete_other in F1 by discriminate;
  try rewrite optional_field_delete_other in F2 by discriminate;
  try rewrite optional_field_delete_other in F3 by discriminate;
  try rewrite optional_field_delete_other in F4 by discriminate;
  try rewrite optional_field_delete_other in F5 by discriminate;
  try rewrite optional_field_delete_other in F6 by discriminate;
  try rewrite optional_field_delete_other in F7 by discriminate;
  rewrite ?init_updateTime_delete_other in F8 by discriminate.

(** The rest of C1 as the code has it: an ISO [updateTime] is replaced by
    the UTC rendering of the date it denotes. *)
Lemma updateTime_ISO_rendered (version : Value) (r0 : VersionImpl.t) :
  validator.isISODateString (get version "updateTime") = true ->
  VersionImpl.new (delete "updateTime" version) = Ok r0 ->
  VersionImpl.new version =
  Ok (VersionImpl.mk (VersionImpl.versionNumber r0)
        (VString (toUTCString (new_Date (get version "updateTime"))))
        (VersionImpl.updateOrigin r0) (VersionImpl.updateType r0)
        (VersionImpl.updateUser r0) (VersionImpl.description r0)
        (VersionImpl.rollbackSource r0) (VersionImpl.isLegacy r0)).
Proof.
  intros E H. frame_fields H.
  apply VersionImpl_new_Ok. simpl.
  repeat split; try assumption. now apply init_updateTime_ISO.
Qed.

(** An [updateTime] in neither format is rejected, whatever the other
    fields are. *)
Lemma updateTime_invalid_rejected (version : Value) :
  defined (get version "updateTime") = true ->
  validator.isISODateString (get version "updateTime") = false ->
  validator.isUTCDateString (get version "updateTime") = false ->
  fails_invalid_argument (VersionImpl.new version).
Proof.
  intros E0 E1 E2. apply VersionImpl_new_not_Ok. intros r H.
  apply VersionImpl_new_Ok in H.
  destruct H as (_ & _ & _ & _ & _ & _ & _ & _ & F8).
  rewrite (init_updateTime_neither version E0 E1 E2) in F8. discriminate F8.
Qed.

(** C1. A Version input whose [updateTime] is a UTC-format date string and
    not an ISO one is accepted, but the normalized Version does not carry
    the string: the constructor assigns [updateTime] in the ISO branch only,
    so the field is left undefined and the result is the one obtained from
    the input without [updateTime]. *)
Theorem updateTime_UTC_is_dropped (version : Value) (s : string)
    (r0 : VersionImpl.t) :
  get version "updateTime" = VString s ->
  ISO_date_grammar s = false ->
  UTC_date_grammar s = true ->
  VersionImpl.new (delete "updateTime" version) = Ok r0 ->
  VersionImpl.new version = Ok r0 /\
  VersionImpl.updateTime r0 = VUndefined /\
  VersionImpl.updateTime r0 <> get version "updateTime".
Proof.
  intros Hs Hiso Hutc H. frame_fields H.
  rewrite init_updateTime_delete_same in F8. injection F8 as F8.
  split; [|split].
  - apply VersionImpl_new_Ok. repeat split; try assumption.
    rewrite <- F8. apply init_updateTime_UTC_only; rewrite Hs; assumption.
  - now rewrite <- F8.
  - rewrite <- F8, Hs. discriminate.
Qed.

(** C4. A present [versionNumber] that is neither a non-empty string nor a
    number, or that [Number] does not convert to an integer, makes the
    construction fail with [invalid-argument]; a non-empty string or a number
    that converts to an integer is stored as it was given, string or number,
    whenever the rest of the input normalizes. *)
Theorem versionNumber_integer_or_rejected (version : Value) :
  defined (get version "versionNumber") = true ->
  ((validator.isNonEmptyString (get version "versionNumber") ||
    validator.isNumber (get version "versionNumber") = false) \/
   Number_isInteger (Number (get version "versionNumber")) = false ->
   fails_invalid_argument (VersionImpl.new version)) /\
  (validator.isNonEmptyString (get version "versionNumber") ||
   validator.isNumber (get version "versionNumber") = true ->
   Number_isInteger (Number (get version "versionNumber")) = true ->
   forall r0, VersionImpl.new (delete "versionNumber" version) = Ok r0 ->
   VersionImpl.new version =
   Ok (VersionImpl.mk (get version "versionNumber")
         (VersionImpl.updateTime r0)
         (VersionImpl.updateOrigin r0) (VersionImpl.updateType r0)
         (VersionImpl.updateUser r0) (VersionImpl.description r0)
         (VersionImpl.rollbackSource r0) (VersionImpl.isLegacy r0))).
Proof.
  intros Hdef. split.
  - intros Hbad. apply VersionImpl_new_not_Ok. intros r H.
    apply VersionImpl_new_Ok in H. destruct H as (_ & F1 & _).
    unfold VersionImpl.init_versionNumber in F1. rewrite Hdef in F1.
    rewrite <- negb_orb in F1.
    destruct Hbad as [E|E]; rewrite E in F1; simpl in F1.
    + discriminate F1.
    + destruct (negb _); discriminate F1.
  - intros Hty Hint r0 H. frame_fields H.
    apply VersionImpl_new_Ok. simpl. repeat split; try assumption.
    unfold VersionImpl.init_versionNumber.
    now rewrite Hdef, <- negb_orb, Hty, Hint.
Qed.

(** C5, as amended.  A present [updateOrigin], and likewise a present
    [updateType], must be a non-empty string or the construction fails with
    [invalid-argument]; every non-empty string is accepted and stored as
    given, member of the declared union or not, whenever the rest of the
    input normalizes. *)
Theorem update_fields_non_empty_string (version : Value) :
  (defined (get version "updateOrigin") = true ->
   (validator.isNonEmptyString (get version "updateOrigin") = false ->
    fails_invalid_argument (VersionImpl.new version)) /\
   (validator.isNonEmptyString (get version "updateOrigin") = true ->
    forall r0, VersionImpl.new (delete "updateOrigin" version) = Ok r0 ->
    VersionImpl.new version =
    Ok (VersionImpl.mk (VersionImpl.versionNumber r0)
          (VersionImpl.updateTime r0)
          (get version "updateOrigin") (VersionImpl.updateType r0)
          (VersionImpl.updateUser r0) (VersionImpl.description r0)
          (VersionImpl.rollbackSource r0) (VersionImpl.isLegacy r0)))) /\
  (defined (get version "updateType") = true ->
   (validator.isNonEmptyString (get version "updateType") = false ->
    fails_invalid_argument (VersionImpl.new version)) /\
   (validator.isNonEmptyString (get version "updateType") = true ->
    forall r0, VersionImpl.new (delete "updateType" version) = Ok r0 ->
    VersionImpl.new version =
    Ok (VersionImpl.mk (VersionImpl.versionNumber r0)
          (VersionImpl.updateTime r0)
          (VersionImpl.updateOrigin r0) (get version "updateType")
          (VersionImpl.updateUser r0) (VersionImpl.description r0)
          (VersionImpl.rollbackSource r0) (VersionImpl.isLegacy r0)))).
Proof.
  split; intros Hdef; split.
  - intros Hbad. apply VersionImpl_new_not_Ok. intros r H.
    apply VersionImpl_new_Ok in H. destruct H as (_ & _ & F2 & _).
    unfold VersionImpl.optional_field in F2. rewrite Hdef, Hbad in F2.
    discriminate F2.
  - intros Hty r0 H. frame_fields H.
    apply VersionImpl_new_Ok. simpl. repeat split; try assumption.
    unfold VersionImpl.optional_field. now rewrite Hdef, Hty.
  - intros Hbad. apply VersionImpl_new_not_Ok. intros r H.
    apply VersionImpl_new_Ok in H. destruct H as (_ & _ & _ & F3 & _).
    unfold VersionImpl.optional_field in F3. rewrite Hdef, Hbad in F3.
    discriminate F3.
  - intros Hty r0 H. frame_fields H.
    apply VersionImpl_new_Ok. simpl. repeat split; try assumption.
    unfold VersionImpl.optional_field. now rewrite Hdef, Hty.
Qed.

End VersionNormalizer.

Section TemplateNormalizer.
Context {rt : Runtime}.

Lemma init_version_only (config : Value) :
  only_invalid_argument (RemoteConfigTemplateImpl.init_version config).
Proof.
  unfold RemoteConfigTemplateImpl.init_version.
  destruct (defined _); [|apply only_Ok].
  apply only_bind; [apply VersionImpl_new_only|intros a; apply only_Ok].
Qed.

(** The template normalizer either succeeds or fails with
    [invalid-argument]. *)
Lemma RemoteConfigTemplateImpl_new_only (config : Value) :
  only_invalid_argument (RemoteConfigTemplateImpl.new config).
Proof.
  unfold RemoteConfigTemplateImpl.new, RemoteConfigTemplateImpl.init_parameters,
    RemoteConfigTemplateImpl.init_parameterGroups,
    RemoteConfigTemplateImpl.init_conditions.
  pose proof (init_version_only config).
  only_cases; assumption.
Qed.

(** The constructor succeeds exactly when the guard on the input and its
    [etag] passes and each of the four field blocks succeeds. *)
Lemma RemoteConfigTemplateImpl_new_Ok (config : Value)
    (t : RemoteConfigTemplateImpl.t) :
  RemoteConfigTemplateImpl.new config = Ok t <->
  validator.isNonNullObject config = true /\
  validator.isNonEmptyString (get config "etag") = true /\
  RemoteConfigTemplateImpl.init_parameters config
    = Ok (RemoteConfigTemplateImpl.parameters t) /\
  RemoteConfigTemplateImpl.init_parameterGroups config
    = Ok (RemoteConfigTemplateImpl.parameterGroups t) /\
  RemoteConfigTemplateImpl.init_conditions config
    = Ok (RemoteConfigTemplateImpl.conditions t) /\
  RemoteConfigTemplateImpl.init_version config
    = Ok (RemoteConfigTemplateImpl.version t) /\
  RemoteConfigTemplateImpl.etagInternal t = get config "etag".
Proof.
  unfold RemoteConfigTemplateImpl.new. split.
  - destruct (validator.isNonNullObject config); simpl; [|discriminate].
    destruct (validator.isNonEmptyString (get config "etag")); simpl;
      [|discriminate].
    destruct (RemoteConfigTemplateImpl.init_parameters config); simpl;
      [|discriminate].
    destruct (RemoteConfigTemplateImpl.init_parameterGroups config); simpl;
      [|discriminate].
    destruct (RemoteConfigTemplateImpl.init_conditions config); simpl;
      [|discriminate].
    destruct (RemoteConfigTemplateImpl.init_version config); simpl;
      [|discriminate].
    intros E. injection E as <-. simpl. repeat split; reflexivity.
  - intros (E0 & E1 & E2 & E3 & E4 & E5 & E6).
    rewrite E0, E1, E2, E3, E4, E5. simpl. rewrite <- E6. now destruct t.
Qed.

Lemma RemoteConfigTemplateImpl_new_not_Ok (config : Value) :
  (forall t, RemoteConfigTemplateImpl.new config <> Ok t) ->
  fails_invalid_argument (RemoteConfigTemplateImpl.new config).
Proof.
  intros Hno. destruct (RemoteConfigTemplateImpl.new config) as [t|e] eqn:E.
  - destruct (Hno t). reflexivity.
  - rewrite <- E. apply (RemoteConfigTemplateImpl_new_only config e E).
Qed.

(** C3. An input that is not a non-null object, or whose [etag] is
    missing, not a string, or the empty string, is rejected with
    [invalid-argument]; an object with a non-empty string [etag] whose
    [parameters], [parameterGroups], [conditions] and [version] are absent
    or well-formed is accepted, and the template's [etag] is the input's. *)
Theorem etag_is_mandatory (config : Value) :
  (validator.isNonNullObject config = false \/
   get config "etag" = VUndefined \/
   (forall s, get config "etag" <> VString s) \/
   get config "etag" = VString EmptyString ->
   fails_invalid_argument (RemoteConfigTemplateImpl.new config)) /\
  (validator.isNonNullObject config = true ->
   validator.isNonEmptyString (get config "etag") = true ->
   (defined (get config "parameters") = true ->
    validator.isNonNullObject (get config "parameters") = true) ->
   (defined (get config "parameterGroups") = true ->
    validator.isNonNullObject (get config "parameterGroups") = true) ->
   (defined (get config "conditions") = true ->
    validator.isArray (get config "conditions") = true) ->
   (defined (get config "version") = true ->
    exists v, VersionImpl.new (get config "version") = Ok v) ->
   exists t, RemoteConfigTemplateImpl.new config = Ok t /\
             RemoteConfigTemplateImpl.etag t = get config "etag").
Proof.
  split.
  - intros Hbad.
    assert (G : negb (validator.isNonNullObject config) ||
                negb (validator.isNonEmptyString (get config "etag")) = true).
    { destruct Hbad as [E|[E|[E|E]]].
      - now rewrite E.
      - rewrite E. apply orb_true_r.
      - destruct (get config "etag") eqn:Eg; simpl; try apply orb_true_r.
        destruct (E s). reflexivity.
      - rewrite E. apply orb_true_r. }
    unfold RemoteConfigTemplateImpl.new. rewrite G.
    apply fails_invalid_argument_throw.
  - intros Hobj Hetag Hp Hg Hc Hv.
    assert (Ev : exists v, RemoteConfigTemplateImpl.init_version config = Ok v).
    { unfold RemoteConfigTemplateImpl.init_version.
      destruct (defined (get config "version")); [|now exists None].
      destruct (Hv eq_refl) as [v ->]. now exists (Some v). }
    destruct Ev as [v Ev].
    exists (RemoteConfigTemplateImpl.mk
              (if defined (get config "parameters")
               then get config "parameters" else VObject [])
              (if defined (get config "parameterGroups")
               then get config "parameterGroups" else VObject [])
              (if defined (get config "conditions")
               then get config "conditions" else VArray [])
              (get config "etag") v).
    split; [|reflexivity].
    apply RemoteConfigTemplateImpl_new_Ok. simpl.
    unfold RemoteConfigTemplateImpl.init_parameters,
      RemoteConfigTemplateImpl.init_parameterGroups,
      RemoteConfigTemplateImpl.init_conditions.
    repeat split; try assumption.
    + destruct (defined (get config "parameters")); [|reflexivity].
      now rewrite (Hp eq_refl).
    + destruct (defined (get config "parameterGroups")); [|reflexivity].
      now rewrite (Hg eq_refl).
    + destruct (defined (get config "conditions")); [|reflexivity].
      now rewrite (Hc eq_refl).
Qed.

(** C6. For an input that passes the [etag] guard: a present [parameters]
    or [parameterGroups] that is not a non-null object, or a present
    [conditions] that is not an array, is rejected with [invalid-argument];
    in every template that is constructed, an absent field is the empty
    mapping [{}] (the empty sequence [[]] for [conditions]) and a present
    one is the input's value itself, unchanged; and the construction does
    succeed when the three fields have these shapes and the version block
    succeeds. *)
Theorem collections_default_to_empty (config : Value) :
  validator.isNonNullObject config = true ->
  validator.isNonEmptyString (get config "etag") = true ->
  ((defined (get config "parameters") = true /\
    validator.isNonNullObject (get config "parameters") = false) \/
   (defined (get config "parameterGroups") = true /\
    validator.isNonNullObject (get config "parameterGroups") = false) \/
   (defined (get config "conditions") = true /\
    validator.isArray (get config "conditions") = false) ->
   fails_invalid_argument (RemoteConfigTemplateImpl.new config)) /\
  (forall t, RemoteConfigTemplateImpl.new config = Ok t ->
   (defined (get config "parameters") = false ->
    RemoteConfigTemplateImpl.parameters t = VObject []) /\
   (defined (get config "parameterGroups") = false ->
    RemoteConfigTemplateImpl.parameterGroups t = VObject []) /\
   (defined (get config "conditions") = false ->
    RemoteConfigTemplateImpl.conditions t = VArray []) /\
   (defined (get config "parameters") = true ->
    RemoteConfigTemplateImpl.parameters t = get config "parameters") /\
   (defined (get config "parameterGroups") = true ->
    RemoteConfigTemplateImpl.parameterGroups t = get config "parameterGroups") /\
   (defined (get config "conditions") = true ->
    RemoteConfigTemplateImpl.conditions t = get config "conditions")) /\
  ((defined (get config "parameters") = true ->
    validator.isNonNullObject (get config "parameters") = true) ->
   (defined (get config "parameterGroups") = true ->
    validator.isNonNullObject (get config "parameterGroups") = true) ->
   (defined (get config "conditions") = true ->
    validator.isArray (get config "conditions") = true) ->
   forall v, RemoteConfigTemplateImpl.init_version config = Ok v ->
   exists t, RemoteConfigTemplateImpl.new config = Ok t).
Proof.
  intros Hobj Hetag. split; [|split].
  - intros Hbad. apply RemoteConfigTemplateImpl_new_not_Ok. intros t H.
    apply RemoteConfigTemplateImpl_new_Ok in H.
    destruct H as (_ & _ & E2 & E3 & E4 & _).
    unfold RemoteConfigTemplateImpl.init_parameters in E2.
    unfold RemoteConfigTemplateImpl.init_parameterGroups in E3.
    unfold RemoteConfigTemplateImpl.init_conditions in E4.
    destruct Hbad as [[D B]|[[D B]|[D B]]].
    + rewrite D, B in E2. discriminate E2.
    + rewrite D, B in E3. discriminate E3.
    + rewrite D, B in E4. discriminate E4.
  - intros t H. apply RemoteConfigTemplateImpl_new_Ok in H.
    destruct H as (_ & _ & E2 & E3 & E4 & _).
    unfold RemoteConfigTemplateImpl.init_parameters in E2.
    unfold RemoteConfigTemplateImpl.init_parameterGroups in E3.
    unfold RemoteConfigTemplateImpl.init_conditions in E4.
    repeat split; intros D.
    + rewrite D in E2. now injection E2.
    + rewrite D in E3. now injection E3.
    + rewrite D in E4. now injection E4.
    + rewrite D in E2.
      destruct (validator.isNonNullObject (get config "parameters"));
        [now injection E2|discriminate E2].
    + rewrite D in E3.
      destruct (validator.isNonNullObject (get config "parameterGroups"));
        [now injection E3|discriminate E3].
    + rewrite D in E4.
      destruct (validator.isArray (get config "conditions"));
        [now injection E4|discriminate E4].
  - intros Hp Hg Hc v Ev.
    exists (RemoteConfigTemplateImpl.mk
              (if defined (get config "parameters")
               then get config "parameters" else VObject [])
              (if defined (get config "parameterGroups")
               then get config "parameterGroups" else VObject [])
              (if defined (get config "conditions")
               then get config "conditions" else VArray [])
              (get config "etag") v).
    apply RemoteConfigTemplateImpl_new_Ok. simpl.
    unfold RemoteConfigTemplateImpl.init_parameters,
      RemoteConfigTemplateImpl.init_parameterGroups,
      RemoteConfigTemplateImpl.init_conditions.
    repeat split; try assumption.
    + destruct (defined (get config "parameters")); [|reflexivity].
      now rewrite (Hp eq_refl).
    + destruct (defined (get config "parameterGroups")); [|reflexivity].
      now rewrite (Hg eq_refl).
    + destruct (defined (get config "conditions")); [|reflexivity].
      now rewrite (Hc eq_refl).
Qed.


Lemma lookup_put_same (k : string) (v : Value) (own : list (string * Value)) :
  lookup k (RemoteConfigTemplateImpl.put k v own) = v.
Proof.
  induction own as [|[k0 v0] own IH]; simpl.
  - now rewrite String.eqb_refl.
  - destruct (k0 =? k) eqn:E0; simpl.
    + now rewrite String.eqb_refl.
    + now rewrite E0.
Qed.





End TemplateNormalizer.

Section RoundTrip.
Context {rt : Runtime}.

(** A field block that produced [x] produces [x] again on any object that
    holds [x] in that field. *)
Lemma optional_field_again (version o : Value) (k : string)
    (check : Value -> bool) (message : string) (x : Value) :
  VersionImpl.optional_field version k check message = Ok x ->
  get o k = x ->
  VersionImpl.optional_field o k check message = Ok x.
Proof.
  unfold VersionImpl.optional_field. intros E G. rewrite G.
  destruct (defined (get version k)) eqn:D.
  - destruct (check (get version k)) eqn:C; simpl in E; [|discriminate E].
    injection E as <-. now rewrite D, C.
  - injection E as <-. reflexivity.
Qed.

Lemma init_versionNumber_again (version o : Value) (x : Value) :
  VersionImpl.init_versionNumber version = Ok x ->
  get o "versionNumber" = x ->
  VersionImpl.init_versionNumber o = Ok x.
Proof.
  unfold VersionImpl.init_versionNumber. intros E G. rewrite G.
  destruct (defined (get version "versionNumber")) eqn:D.
  - destruct (negb (validator.isNonEmptyString (get version "versionNumber")) &&
              negb (validator.isNumber (get version "versionNumber"))) eqn:C1;
      [discriminate E|].
    destruct (negb (Number_isInteger (Number (get version "versionNumber"))))
      eqn:C2; [discriminate E|].
    injection E as <-. now rewrite D, C1, C2.
  - injection E as <-. reflexivity.
Qed.

(** Normalizing a normalized Version again: every field but [updateTime] is
    reproduced, and [updateTime] goes through its block once more. *)
Lemma VersionImpl_renormalize (version : Value) (r : VersionImpl.t) :
  VersionImpl.new version = Ok r ->
  VersionImpl.new (VersionImpl.instance r) =
  (u <- VersionImpl.init_updateTime (VersionImpl.instance r) ;;
   Ok (VersionImpl.mk (VersionImpl.versionNumber r) u
         (VersionImpl.updateOrigin r) (VersionImpl.updateType r)
         (VersionImpl.updateUser r) (VersionImpl.description r)
         (VersionImpl.rollbackSource r) (VersionImpl.isLegacy r))).
Proof.
  intros H. apply VersionImpl_new_Ok in H.
  destruct H as (F0 & F1 & F2 & F3 & F4 & F5 & F6 & F7 & F8).
  unfold VersionImpl.new.
  replace (validator.isNonNullObject (VersionImpl.instance r)) with true
    by reflexivity.
  rewrite (init_versionNumber_again version (VersionImpl.instance r) _ F1 eq_refl).
  rewrite (optional_field_again version (VersionImpl.instance r) _ _ _ _ F2 eq_refl).
  rewrite (optional_field_again version (VersionImpl.instance r) _ _ _ _ F3 eq_refl).
  rewrite (optional_field_again version (VersionImpl.instance r) _ _ _ _ F4 eq_refl).
  rewrite (optional_field_again version (VersionImpl.instance r) _ _ _ _ F5 eq_refl).
  rewrite (optional_field_again version (VersionImpl.instance r) _ _ _ _ F6 eq_refl).
  rewrite (optional_field_again version (VersionImpl.instance r) _ _ _ _ F7 eq_refl).
  reflexivity.
Qed.

(** Normalizing the serialization of a normalized template: everything is
    reproduced except, possibly, the [updateTime] of the version. *)
Lemma RemoteConfigTemplateImpl_renormalize (config : Value)
    (t : RemoteConfigTemplateImpl.t) :
  RemoteConfigTemplateImpl.new config = Ok t ->
  RemoteConfigTemplateImpl.new (RemoteConfigTemplateImpl.toJSON t) =
  match RemoteConfigTemplateImpl.version t with
  | None => Ok t
  | Some v =>
      u <- VersionImpl.init_updateTime (VersionImpl.instance v) ;;
      Ok (RemoteConfigTemplateImpl.mk
            (RemoteConfigTemplateImpl.parameters t)
            (RemoteConfigTemplateImpl.parameterGroups t)
            (RemoteConfigTemplateImpl.conditions t)
            (RemoteConfigTemplateImpl.etagInternal t)
            (Some (VersionImpl.mk (VersionImpl.versionNumber v) u
                     (VersionImpl.updateOrigin v) (VersionImpl.updateType v)
                     (VersionImpl.updateUser v) (VersionImpl.description v)
                     (VersionImpl.rollbackSource v) (VersionImpl.isLegacy v))))
  end.
Proof.
  intros H. apply RemoteConfigTemplateImpl_new_Ok in H.
  destruct H as (E0 & E1 & E2 & E3 & E4 & E5 & E6).
  destruct t as [p g c e v]. simpl in *. subst e.
  assert (Hp : validator.isNonNullObject p = true).
  { unfold RemoteConfigTemplateImpl.init_parameters in E2.
    destruct (defined _); [|now injection E2 as <-].
    destruct (validator.isNonNullObject (get config "parameters")) eqn:V;
      [|discriminate E2].
    now injection E2 as <-. }
  assert (Hg : validator.isNonNullObject g = true).
  { unfold RemoteConfigTemplateImpl.init_parameterGroups in E3.
    destruct (defined _); [|now injection E3 as <-].
    destruct (validator.isNonNullObject (get config "parameterGroups")) eqn:V;
      [|discriminate E3].
    now injection E3 as <-. }
  assert (Hc : validator.isArray c = true).
  { unfold RemoteConfigTemplateImpl.init_conditions in E4.
    destruct (defined _); [|now injection E4 as <-].
    destruct (validator.isArray (get config "conditions")) eqn:V;
      [|discriminate E4].
    now injection E4 as <-. }
  unfold RemoteConfigTemplateImpl.new, RemoteConfigTemplateImpl.init_parameters,
    RemoteConfigTemplateImpl.init_parameterGroups,
    RemoteConfigTemplateImpl.init_conditions,
    RemoteConfigTemplateImpl.init_version.
  cbn [RemoteConfigTemplateImpl.toJSON get lookup String.eqb Ascii.eqb Bool.eqb
       RemoteConfigTemplateImpl.conditions RemoteConfigTemplateImpl.parameters
       RemoteConfigTemplateImpl.parameterGroups RemoteConfigTemplateImpl.etag
       RemoteConfigTemplateImpl.etagInternal
       RemoteConfigTemplateImpl.version_value RemoteConfigTemplateImpl.version
       validator.isNonNullObject negb orb].
  rewrite E1, Hp, Hg, Hc.
  destruct p; try discriminate Hp. destruct g; try discriminate Hg.
  destruct c; try discriminate Hc.
  cbn [defined typeof String.eqb Ascii.eqb Bool.eqb negb bind orb].
  destruct v as [v|]; [|reflexivity].
  change (RemoteConfigTemplateImpl.version_value _)
    with (VersionImpl.instance v).
  replace (defined (VersionImpl.instance v)) with true by reflexivity.
  assert (Hv : VersionImpl.new (get config "version") = Ok v).
  { unfold RemoteConfigTemplateImpl.init_version in E5.
    destruct (defined _); [|discriminate E5].
    destruct (VersionImpl.new (get config "version")); simpl in E5;
      [now injection E5 as <-|discriminate E5]. }
  rewrite (VersionImpl_renormalize _ _ Hv).
  destruct (VersionImpl.init_updateTime (VersionImpl.instance v)); reflexivity.
Qed.

(** The record that [VersionImpl.toJSON] returns reads like the instance
    itself, so a Version serialized on its own normalizes the same way. *)
Lemma VersionImpl_toJSON_reads (r : VersionImpl.t) (k : string) :
  get (VersionImpl.toJSON r) k = get (VersionImpl.instance r) k.
Proof.
  unfold VersionImpl.toJSON, VersionImpl.instance, get, lookup.
  repeat match goal with
         | |- context [String.eqb ?a k] =>
             destruct (String.eqb_spec a k) as [<-|_]; [reflexivity|]
         end.
  reflexivity.
Qed.

Lemma VersionImpl_new_toJSON (r : VersionImpl.t) :
  VersionImpl.new (VersionImpl.toJSON r) =
  VersionImpl.new (VersionImpl.instance r).
Proof.
  unfold VersionImpl.new, VersionImpl.init_versionNumber,
    VersionImpl.init_updateTime, VersionImpl.optional_field.
  now rewrite !VersionImpl_toJSON_reads.
Qed.

(** X16. A normalized template whose version, if any, has no [updateTime]
    round-trips: normalizing its serialization succeeds and gives the same
    template back. *)
Lemma roundtrip_without_updateTime (config : Value)
    (t : RemoteConfigTemplateImpl.t) :
  RemoteConfigTemplateImpl.new config = Ok t ->
  (forall v, RemoteConfigTemplateImpl.version t = Some v ->
             VersionImpl.updateTime v = VUndefined) ->
  RemoteConfigTemplateImpl.new (RemoteConfigTemplateImpl.toJSON t) = Ok t.
Proof.
  intros H Hu. rewrite (RemoteConfigTemplateImpl_renormalize _ _ H).
  destruct t as [p g c e [v|]]; [|reflexivity]. simpl in *.
  specialize (Hu v eq_refl).
  unfold VersionImpl.init_updateTime.
  replace (get (VersionImpl.instance v) "updateTime")
    with (VersionImpl.updateTime v) by reflexivity.
  rewrite Hu. simpl. destruct v; simpl in *. now subst.
Qed.

(** C2. The round trip loses the version's [updateTime]: when a normalized
    template carries an [updateTime] (a UTC-format string that is not ISO),
    normalizing its serialization succeeds and reproduces every other field,
    but the resulting version has no [updateTime], so the template is not
    reproduced. *)
Theorem roundtrip_drops_updateTime (config : Value)
    (t : RemoteConfigTemplateImpl.t) (v : VersionImpl.t) (u : string) :
  RemoteConfigTemplateImpl.new config = Ok t ->
  RemoteConfigTemplateImpl.version t = Some v ->
  VersionImpl.updateTime v = VString u ->
  ISO_date_grammar u = false ->
  UTC_date_grammar u = true ->
  exists t' v',
    RemoteConfigTemplateImpl.new (RemoteConfigTemplateImpl.toJSON t) = Ok t' /\
    t' <> t /\
    RemoteConfigTemplateImpl.version t' = Some v' /\
    VersionImpl.updateTime v' = VUndefined /\
    RemoteConfigTemplateImpl.conditions t' = RemoteConfigTemplateImpl.conditions t /\
    RemoteConfigTemplateImpl.parameters t' = RemoteConfigTemplateImpl.parameters t /\
    RemoteConfigTemplateImpl.parameterGroups t'
      = RemoteConfigTemplateImpl.parameterGroups t /\
    RemoteConfigTemplateImpl.etag t' = RemoteConfigTemplateImpl.etag t.
Proof.
  intros H Hv Hu Hiso Hutc.
  pose proof (RemoteConfigTemplateImpl_renormalize _ _ H) as R.
  rewrite Hv in R.
  assert (U : VersionImpl.init_updateTime (VersionImpl.instance v) = Ok VUndefined).
  { apply init_updateTime_UTC_only;
      replace (get (VersionImpl.instance v) "updateTime")
        with (VersionImpl.updateTime v) by reflexivity;
      rewrite Hu; assumption. }
  rewrite U in R. simpl in R.
  eexists _, _. split; [exact R|].
  split; [|repeat split; reflexivity].
  intros Heq. rewrite <- Heq in Hv. simpl in Hv.
  injection Hv as Hv. rewrite <- Hv in Hu. simpl in Hu. discriminate Hu.
Qed.

End RoundTrip.

Section ArrayMap.
Context {A B : Type} (f : A -> Result B).

(** [Array_map] succeeds exactly with the element-wise results, in
    order. *)
Lemma Array_map_Ok (xs : list A) :
  forall ys, Array_map f xs = Ok ys <-> Forall2 (fun x y => f x = Ok y) xs ys.
Proof.
  induction xs as [|x xs IH]; intros ys; simpl.
  - split.
    + intros E. injection E as <-. constructor.
    + intros F. now inversion F.
  - split.
    + destruct (f x) as [y|e] eqn:Ex; simpl; [|discriminate].
      destruct (Array_map f xs) as [zs|e]; simpl; [|discriminate].
      intros E. injection E as <-. constructor; [exact Ex|now apply IH].
    + intros F. inversion F as [|x' y xs' zs Ex Fs]; subst.
      rewrite Ex. simpl. apply IH in Fs. now rewrite Fs.
Qed.

(** It throws what the first failing element throws. *)
Lemma Array_map_Throw (xs : list A) (e : Exception) :
  Array_map f xs = Throw e -> exists x, In x xs /\ f x = Throw e.
Proof.
  induction xs as [|x xs IH]; simpl; [discriminate|].
  destruct (f x) as [y|e'] eqn:Ex; simpl.
  - destruct (Array_map f xs) as [zs|e'']; simpl; [discriminate|].
    intros E. injection E as ->. destruct (IH eq_refl) as (x' & Hin & Hx).
    exists x'. split; [now right|exact Hx].
  - intros E. injection E as ->. exists x. split; [now left|exact Ex].
Qed.

End ArrayMap.

Section Facade.
Context {rt : Runtime}.
Variable ListVersionsOptions : Type.
Variable client_listVersions :
  option ListVersionsOptions -> Result RemoteConfig.ListVersionsResponse.

(** What the transport client rejects with is passed on unchanged. *)
Lemma listVersions_rejection (options : option ListVersionsOptions)
    (e : Exception) :
  client_listVersions options = Throw e ->
  RemoteConfig.listVersions ListVersionsOptions client_listVersions options
    = Throw e.
Proof. intros E. unfold RemoteConfig.listVersions. now rewrite E. Qed.

(** C8. On a response of the transport client, [listVersions] settles with
    a result exactly when every entry of the response's version list
    normalizes; the result's [versions] are then the normalized entries, one
    per entry and in the same order, and its [nextPageToken] is the
    response's.  When the response has no [versions], or an empty list, the
    result's [versions] is the empty sequence. *)
Theorem listVersions_wraps_each_version (options : option ListVersionsOptions)
    (response : RemoteConfig.ListVersionsResponse) :
  client_listVersions options = Ok response ->
  (forall result,
   RemoteConfig.listVersions ListVersionsOptions client_listVersions options
     = Ok result <->
   Forall2 (fun raw wrapped => VersionImpl.new raw = Ok wrapped)
     (match RemoteConfig.response_versions response with
      | Some vs => vs
      | None => []
      end)
     (RemoteConfig.versions result) /\
   RemoteConfig.nextPageToken result
     = RemoteConfig.response_nextPageToken response) /\
  (RemoteConfig.response_versions response = None \/
   RemoteConfig.response_versions response = Some [] ->
   RemoteConfig.listVersions ListVersionsOptions client_listVersions options
     = Ok {| RemoteConfig.versions := [];
             RemoteConfig.nextPageToken :=
               RemoteConfig.response_nextPageToken response |}).
Proof.
  intros E. unfold RemoteConfig.listVersions. rewrite E. simpl. split.
  - intros result. destruct (RemoteConfig.response_versions response) as [vs|].
    + split.
      * destruct (Array_map VersionImpl.new vs) as [ws|e] eqn:M; simpl;
          [|discriminate].
        intros R. injection R as <-. simpl.
        split; [now apply Array_map_Ok|reflexivity].
      * intros [F T]. apply Array_map_Ok in F. rewrite F. simpl.
        rewrite <- T. now destruct result.
    + split.
      * intros R. injection R as <-. simpl. split; [constructor|reflexivity].
      * intros [F T]. inversion F as [Hnil|]. rewrite <- T.
        destruct result as [vs tok]. simpl in *. now subst.
  - intros [-> | ->]; reflexivity.
Qed.

(** C7. [createTemplateFromJSON] rejects every argument that is not a
    non-empty string, the empty string among them, with [invalid-argument];
    it rejects a non-empty string that [JSON.parse] rejects with an
    [invalid-argument] whose message ends with the parse error, as on the text
    [{not json]; and on the text [{"etag":"abc"}] it returns the template
    with that [etag], empty [parameters] and [parameterGroups] mappings and
    an empty [conditions] sequence. *)
Theorem createTemplateFromJSON_examples (syntax_error : string) :
  JSON_parse "{not json" = inr syntax_error ->
  JSON_parse etag_abc_text = inl (VObject [("etag", VString "abc")]) ->
  (forall json, validator.isNonEmptyString json = false ->
   RemoteConfig.createTemplateFromJSON json =
   Throw (FirebaseRemoteConfigError "invalid-argument"
            "JSON string must be a valid non-empty string")) /\
  RemoteConfig.createTemplateFromJSON (VString EmptyString) =
  Throw (FirebaseRemoteConfigError "invalid-argument"
           "JSON string must be a valid non-empty string") /\
  (forall s e, validator.isNonEmptyString (VString s) = true ->
   JSON_parse s = inr e ->
   RemoteConfig.createTemplateFromJSON (VString s) =
   Throw (FirebaseRemoteConfigError "invalid-argument"
            ("Failed to parse the JSON string: " ++ s ++ ". " ++ e))) /\
  RemoteConfig.createTemplateFromJSON (VString "{not json") =
  Throw (FirebaseRemoteConfigError "invalid-argument"
           ("Failed to parse the JSON string: {not json. " ++ syntax_error)) /\
  RemoteConfig.createTemplateFromJSON (VString etag_abc_text) =
  Ok (RemoteConfigTemplateImpl.mk (VObject []) (VObject []) (VArray [])
        (VString "abc") None).
Proof.
  intros Ebad Egood.
  assert (G : forall s e, validator.isNonEmptyString (VString s) = true ->
              JSON_parse s = inr e ->
              RemoteConfig.createTemplateFromJSON (VString s) =
              Throw (FirebaseRemoteConfigError "invalid-argument"
                       ("Failed to parse the JSON string: " ++ s ++ ". " ++ e))).
  { intros s e Hs Hp. unfold RemoteConfig.createTemplateFromJSON.
    rewrite Hs. simpl. now rewrite Hp. }
  repeat split.
  - intros json Hj. unfold RemoteConfig.createTemplateFromJSON. now rewrite Hj.
  - exact G.
  - now rewrite (G "{not json" syntax_error eq_refl Ebad).
  - unfold RemoteConfig.createTemplateFromJSON.
    replace (validator.isNonEmptyString (VString etag_abc_text)) with true
      by reflexivity.
    simpl negb. cbv iota. unfold chars. now rewrite Egood.
Qed.

(** C10. A non-empty text that [JSON.parse] accepts, but whose value is not
    a non-null, non-array object, is rejected with [invalid-argument] by the
    guard of the template constructor. *)
Theorem createTemplateFromJSON_rejects_non_objects (s : string) (v : Value) :
  validator.isNonEmptyString (VString s) = true ->
  JSON_parse s = inl v ->
  validator.isNonNullObject v = false ->
  RemoteConfig.createTemplateFromJSON (VString s) =
  Throw (FirebaseRemoteConfigError "invalid-argument"
           ("Invalid Remote Config template: " ++ JSON_stringify v)).
Proof.
  intros Hs Hp Hv. unfold RemoteConfig.createTemplateFromJSON.
  rewrite Hs. simpl. rewrite Hp.
  unfold RemoteConfigTemplateImpl.new. now rewrite Hv.
Qed.

End Facade.

(* ================================================================= *)
(** ** The theorems at concrete inputs, on the reference runtime *)

Section Examples.

#[local] Existing Instance Reference.runtime.

(** The sample dates are in the formats they are named after. *)
Example sample_formats :
  Reference.is_ISO ISO_sample = true /\ Reference.is_UTC ISO_sample = false /\
  Reference.is_ISO UTC_sample = false /\ Reference.is_UTC UTC_sample = true /\
  toUTCString (new_Date (VString ISO_sample)) = UTC_sample.
Proof. vm_compute. repeat split; reflexivity. Qed.

(** An ISO [updateTime] is rendered as a UTC string. *)
Example updateTime_ISO_example :
  VersionImpl.new (VObject [("updateTime", VString ISO_sample)]) =
  Ok (VersionImpl.mk VUndefined (VString UTC_sample) VUndefined VUndefined
        VUndefined VUndefined VUndefined VUndefined).
Proof. vm_compute. reflexivity. Qed.

(** An [updateTime] in neither format is rejected. *)
Example updateTime_invalid_example :
  VersionImpl.new (VObject [("updateTime", VString "yesterday")]) =
  Throw (FirebaseRemoteConfigError "invalid-argument"
           "Version update time must be a valid date string").
Proof. vm_compute. reflexivity. Qed.

(** C1 at [{updateTime: "Mon, 15 Jun 2020 16:45:03 GMT"}]: the input is
    accepted and the result has no [updateTime]. *)
Lemma updateTime_UTC_is_dropped_witness :
  VersionImpl.new (VObject [("updateTime", VString UTC_sample)])
    = Ok empty_version /\
  VersionImpl.updateTime empty_version = VUndefined /\
  VersionImpl.updateTime empty_version
    <> get (VObject [("updateTime", VString UTC_sample)]) "updateTime".
Proof.
  apply (@updateTime_UTC_is_dropped Reference.runtime
           (VObject [("updateTime", VString UTC_sample)]) UTC_sample
           empty_version).
  - reflexivity.
  - vm_compute. reflexivity.
  - vm_compute. reflexivity.
  - vm_compute. reflexivity.
Defined.

(** C2 at that template: normalizing its serialization gives a template
    that differs from it, its version without [updateTime]. *)
Lemma roundtrip_drops_updateTime_witness :
  exists t' v',
    RemoteConfigTemplateImpl.new (RemoteConfigTemplateImpl.toJSON dated_template)
      = Ok t' /\
    t' <> dated_template /\
    RemoteConfigTemplateImpl.version t' = Some v' /\
    VersionImpl.updateTime v' = VUndefined /\
    RemoteConfigTemplateImpl.conditions t'
      = RemoteConfigTemplateImpl.conditions dated_template /\
    RemoteConfigTemplateImpl.parameters t'
      = RemoteConfigTemplateImpl.parameters dated_template /\
    RemoteConfigTemplateImpl.parameterGroups t'
      = RemoteConfigTemplateImpl.parameterGroups dated_template /\
    RemoteConfigTemplateImpl.etag t'
      = RemoteConfigTemplateImpl.etag dated_template.
Proof.
  apply (@roundtrip_drops_updateTime Reference.runtime dated_config
           dated_template dated_version UTC_sample).
  - vm_compute. reflexivity.
  - reflexivity.
  - reflexivity.
  - vm_compute. reflexivity.
  - vm_compute. reflexivity.
Defined.

(** The same round trip evaluated: the first normalization renders the date,
    the second loses it. *)
Example roundtrip_evaluated :
  RemoteConfigTemplateImpl.new dated_config = Ok dated_template /\
  RemoteConfigTemplateImpl.new (RemoteConfigTemplateImpl.toJSON dated_template)
    = Ok (RemoteConfigTemplateImpl.mk (VObject []) (VObject []) (VArray [])
            (VString "abc") (Some empty_version)).
Proof. vm_compute. split; reflexivity. Qed.

(** C3 at the inputs [null], [{}], [{etag: 7}], [{etag: (empty string)}] and
    [{etag: "abc"}]. *)
Lemma etag_is_mandatory_witness :
  fails_invalid_argument (RemoteConfigTemplateImpl.new VNull) /\
  fails_invalid_argument (RemoteConfigTemplateImpl.new (VObject [])) /\
  fails_invalid_argument
    (RemoteConfigTemplateImpl.new
       (VObject [("etag", VNumber (Finite 7 0))])) /\
  fails_invalid_argument
    (RemoteConfigTemplateImpl.new (VObject [("etag", VString EmptyString)])) /\
  exists t,
    RemoteConfigTemplateImpl.new (VObject [("etag", VString "abc")]) = Ok t /\
    RemoteConfigTemplateImpl.etag t
      = get (VObject [("etag", VString "abc")]) "etag".
Proof.
  split; [|split; [|split; [|split]]].
  - apply (proj1 (@etag_is_mandatory Reference.runtime VNull)).
    left. reflexivity.
  - apply (proj1 (@etag_is_mandatory Reference.runtime (VObject []))).
    right. left. reflexivity.
  - apply (proj1 (@etag_is_mandatory Reference.runtime
                    (VObject [("etag", VNumber (Finite 7 0))]))).
    right. right. left. simpl. discriminate.
  - apply (proj1 (@etag_is_mandatory Reference.runtime
                    (VObject [("etag", VString EmptyString)]))).
    right. right. right. reflexivity.
  - apply (proj2 (@etag_is_mandatory Reference.runtime
                    (VObject [("etag", VString "abc")])));
      simpl; solve [reflexivity | discriminate].
Defined.

(** C4 at the version numbers ["3.5"], [3.5], ["42"] and [42]. *)
Lemma versionNumber_integer_or_rejected_witness :
  fails_invalid_argument
    (VersionImpl.new (VObject [("versionNumber", VString "3.5")])) /\
  fails_invalid_argument
    (VersionImpl.new (VObject [("versionNumber", VNumber (Finite 7 (-1)))])) /\
  VersionImpl.new (VObject [("versionNumber", VString "42")]) =
  Ok (VersionImpl.mk (VString "42") VUndefined VUndefined VUndefined
        VUndefined VUndefined VUndefined VUndefined) /\
  VersionImpl.new (VObject [("versionNumber", VNumber (Finite 42 0))]) =
  Ok (VersionImpl.mk (VNumber (Finite 42 0)) VUndefined VUndefined VUndefined
        VUndefined VUndefined VUndefined VUndefined).
Proof.
  split; [|split; [|split]].
  - apply (proj1 (@versionNumber_integer_or_rejected Reference.runtime
                    (VObject [("versionNumber", VString "3.5")]) eq_refl)).
    right. vm_compute. reflexivity.
  - apply (proj1 (@versionNumber_integer_or_rejected Reference.runtime
                    (VObject [("versionNumber", VNumber (Finite 7 (-1)))])
                    eq_refl)).
    right. vm_compute. reflexivity.
  - apply (proj2 (@versionNumber_integer_or_rejected Reference.runtime
                    (VObject [("versionNumber", VString "42")]) eq_refl)
             eq_refl) with (r0 := empty_version).
    + vm_compute. reflexivity.
    + vm_compute. reflexivity.
  - apply (proj2 (@versionNumber_integer_or_rejected Reference.runtime
                    (VObject [("versionNumber", VNumber (Finite 42 0))])
                    eq_refl)
             eq_refl) with (r0 := empty_version).
    + vm_compute. reflexivity.
    + vm_compute. reflexivity.
Defined.

(** C5 as stated fails: ["BOGUS"] is not a member of the [updateOrigin]
    union, nor ["SIDEWAYS"] of the [updateType] union, and the construction
    succeeds on both and stores them. *)
Lemma update_fields_outside_members_accepted :
  ~ In "BOGUS" VersionImpl.updateOrigin_members /\
  ~ In "SIDEWAYS" VersionImpl.updateType_members /\
  VersionImpl.new (VObject [ ("updateOrigin", VString "BOGUS");
                             ("updateType", VString "SIDEWAYS") ]) =
  Ok (VersionImpl.mk VUndefined VUndefined (VString "BOGUS")
        (VString "SIDEWAYS") VUndefined VUndefined VUndefined VUndefined) /\
  ~ fails_invalid_argument
      (VersionImpl.new (VObject [ ("updateOrigin", VString "BOGUS");
                                  ("updateType", VString "SIDEWAYS") ])).
Proof.
  split; [|split; [|split]].
  - simpl. intros [H|[H|[H|[H|[]]]]]; discriminate H.
  - simpl. intros [H|[H|[H|[H|[]]]]]; discriminate H.
  - vm_compute. reflexivity.
  - intros [m H]. vm_compute in H. discriminate H.
Defined.

(** C5, amended, at [{updateOrigin: 5}], [{updateOrigin: "BOGUS"}],
    [{updateType: (empty string)}] and [{updateType: "ROLLBACK"}]. *)
Lemma update_fields_non_empty_string_witness :
  fails_invalid_argument
    (VersionImpl.new (VObject [("updateOrigin", VNumber (Finite 5 0))])) /\
  VersionImpl.new (VObject [("updateOrigin", VString "BOGUS")]) =
  Ok (VersionImpl.mk VUndefined VUndefined (VString "BOGUS") VUndefined
        VUndefined VUndefined VUndefined VUndefined) /\
  fails_invalid_argument
    (VersionImpl.new (VObject [("updateType", VString EmptyString)])) /\
  VersionImpl.new (VObject [("updateType", VString "ROLLBACK")]) =
  Ok (VersionImpl.mk VUndefined VUndefined VUndefined (VString "ROLLBACK")
        VUndefined VUndefined VUndefined VUndefined).
Proof.
  split; [|split; [|split]].
  - apply (proj1 (proj1 (@update_fields_non_empty_string Reference.runtime
                           (VObject [("updateOrigin", VNumber (Finite 5 0))]))
                    eq_refl)).
    reflexivity.
  - apply (proj2 (proj1 (@update_fields_non_empty_string Reference.runtime
                           (VObject [("updateOrigin", VString "BOGUS")]))
                    eq_refl) eq_refl) with (r0 := empty_version).
    vm_compute. reflexivity.
  - apply (proj1 (proj2 (@update_fields_non_empty_string Reference.runtime
                           (VObject [("updateType", VString EmptyString)]))
                    eq_refl)).
    reflexivity.
  - apply (proj2 (proj2 (@update_fields_non_empty_string Reference.runtime
                           (VObject [("updateType", VString "ROLLBACK")]))
                    eq_refl) eq_refl) with (r0 := empty_version).
    vm_compute. reflexivity.
Defined.

(** C6 at [{etag: "abc"}], whose three collections default to empty ones,
    at [{etag: "abc", parameters: null}], which is rejected, and at
    [{etag: "abc", conditions: [1, "x"]}], whose elements are no conditions
    and are kept as they are. *)
Lemma collections_default_to_empty_witness :
  (forall t,
   RemoteConfigTemplateImpl.new (VObject [("etag", VString "abc")]) = Ok t ->
   RemoteConfigTemplateImpl.parameters t = VObject [] /\
   RemoteConfigTemplateImpl.parameterGroups t = VObject [] /\
   RemoteConfigTemplateImpl.conditions t = VArray []) /\
  (exists t,
   RemoteConfigTemplateImpl.new (VObject [("etag", VString "abc")]) = Ok t) /\
  fails_invalid_argument
    (RemoteConfigTemplateImpl.new
       (VObject [("etag", VString "abc"); ("parameters", VNull)])) /\
  (forall t,
   RemoteConfigTemplateImpl.new
     (VObject [ ("etag", VString "abc");
                ("conditions", VArray [VNumber (Finite 1 0); VString "x"]) ])
     = Ok t ->
   RemoteConfigTemplateImpl.conditions t
     = VArray [VNumber (Finite 1 0); VString "x"]).
Proof.
  split; [|split; [|split]].
  - intros t H.
    destruct (proj1 (proj2 (@collections_default_to_empty Reference.runtime
                              (VObject [("etag", VString "abc")])
                              eq_refl eq_refl)) t H)
      as (P & G & C & _).
    split; [apply P; reflexivity|split; [apply G; reflexivity|apply C; reflexivity]].
  - apply (proj2 (proj2 (@collections_default_to_empty Reference.runtime
                           (VObject [("etag", VString "abc")])
                           eq_refl eq_refl))) with (v := None);
      simpl; solve [reflexivity | discriminate].
  - apply (proj1 (@collections_default_to_empty Reference.runtime
                    (VObject [("etag", VString "abc"); ("parameters", VNull)])
                    eq_refl eq_refl)).
    left. split; reflexivity.
  - intros t H.
    destruct (proj1 (proj2 (@collections_default_to_empty Reference.runtime
                              (VObject [ ("etag", VString "abc");
                                         ("conditions",
                                          VArray [VNumber (Finite 1 0);
                                                  VString "x"]) ])
                              eq_refl eq_refl)) t H)
      as (_ & _ & _ & _ & _ & C).
    apply C. reflexivity.
Defined.

(** C7 on the reference runtime. *)
Lemma createTemplateFromJSON_examples_witness :
  RemoteConfig.createTemplateFromJSON (VString EmptyString) =
  Throw (FirebaseRemoteConfigError "invalid-argument"
           "JSON string must be a valid non-empty string") /\
  RemoteConfig.createTemplateFromJSON (VString "{not json") =
  Throw (FirebaseRemoteConfigError "invalid-argument"
           ("Failed to parse the JSON string: {not json. " ++ not_json_error)) /\
  RemoteConfig.createTemplateFromJSON (VString etag_abc_text) =
  Ok (RemoteConfigTemplateImpl.mk (VObject []) (VObject []) (VArray [])
        (VString "abc") None).
Proof.
  assert (H := @createTemplateFromJSON_examples Reference.runtime not_json_error).
  assert (Ebad : JSON_parse "{not json" = inr not_json_error)
    by (vm_compute; reflexivity).
  assert (Egood : JSON_parse etag_abc_text = inl (VObject [("etag", VString "abc")]))
    by (vm_compute; reflexivity).
  destruct (H Ebad Egood) as (_ & E1 & _ & E2 & E3).
  split; [exact E1|split; [exact E2|exact E3]].
Defined.

(** C8 on that client. *)
Lemma listVersions_wraps_each_version_witness :
  RemoteConfig.listVersions unit sample_client None =
  Ok {| RemoteConfig.versions :=
          [ VersionImpl.mk (VString "7") (VString UTC_sample) VUndefined
              VUndefined VUndefined VUndefined VUndefined VUndefined;
            VersionImpl.mk (VString "6") VUndefined VUndefined
              VUndefined VUndefined VUndefined VUndefined VUndefined ];
        RemoteConfig.nextPageToken := VString "page-2" |} /\
  RemoteConfig.listVersions unit sample_client (Some tt) =
  Ok {| RemoteConfig.versions := [];
        RemoteConfig.nextPageToken := VUndefined |}.
Proof.
  split.
  - apply (proj1 (@listVersions_wraps_each_version Reference.runtime unit
                    sample_client None _ eq_refl)).
    split; [|reflexivity].
    repeat constructor.
  - apply (proj2 (@listVersions_wraps_each_version Reference.runtime unit
                    sample_client (Some tt) _ eq_refl)).
    left. reflexivity.
Defined.



(** C10 at the texts [null], [42], ["abc"], [true] and [[]]. *)
Lemma createTemplateFromJSON_rejects_non_objects_witness :
  RemoteConfig.createTemplateFromJSON (VString "null") =
  Throw (FirebaseRemoteConfigError "invalid-argument"
           "Invalid Remote Config template: null") /\
  RemoteConfig.createTemplateFromJSON (VString "42") =
  Throw (FirebaseRemoteConfigError "invalid-argument"
           "Invalid Remote Config template: 42") /\
  RemoteConfig.createTemplateFromJSON (VString (quoted "abc")) =
  Throw (FirebaseRemoteConfigError "invalid-argument"
           ("Invalid Remote Config template: " ++ quoted "abc")) /\
  RemoteConfig.createTemplateFromJSON (VString "true") =
  Throw (FirebaseRemoteConfigError "invalid-argument"
           "Invalid Remote Config template: true") /\
  RemoteConfig.createTemplateFromJSON (VString "[]") =
  Throw (FirebaseRemoteConfigError "invalid-argument"
           "Invalid Remote Config template: []").
Proof.
  split; [|split; [|split; [|split]]].
  - apply (@createTemplateFromJSON_rejects_non_objects Reference.runtime
             "null" VNull); vm_compute; reflexivity.
  - apply (@createTemplateFromJSON_rejects_non_objects Reference.runtime
             "42" (VNumber (Finite 42 0))); vm_compute; reflexivity.
  - apply (@createTemplateFromJSON_rejects_non_objects Reference.runtime
             (quoted "abc") (VString "abc")); vm_compute; reflexivity.
  - apply (@createTemplateFromJSON_rejects_non_objects Reference.runtime
             "true" (VBoolean true)); vm_compute; reflexivity.
  - apply (@createTemplateFromJSON_rejects_non_objects Reference.runtime
             "[]" (VArray [])); vm_compute; reflexivity.
Defined.

End Examples.

(* ================================================================= *)
(** ** Further properties of the constructors and the facade *)

Section FieldBlocks.
Context {rt : Runtime}.

Lemma defined_false (v : Value) : defined v = false -> v = VUndefined.
Proof. destruct v; simpl; intros E; solve [reflexivity | discriminate E]. Qed.

(** A plain field block succeeds exactly when the property is absent or
    passes its check, and it returns the property as read. *)
Lemma optional_field_Ok_iff (version : Value) (k : string)
    (check : Value -> bool) (message : string) (x : Value) :
  VersionImpl.optional_field version k check message = Ok x <->
  x = get version k /\
  (defined (get version k) = true -> check (get version k) = true).
Proof.
  unfold VersionImpl.optional_field.
  destruct (defined (get version k)) eqn:D.
  - destruct (check (get version k)) eqn:C; simpl; split.
    + intros E. injection E as <-. now split.
    + intros [-> _]. reflexivity.
    + discriminate.
    + intros [_ F]. discriminate (F eq_refl).
  - rewrite (defined_false _ D). split.
    + intros E. injection E as <-. split; [reflexivity|discriminate].
    + intros [-> _]. reflexivity.
Qed.

Lemma init_versionNumber_Ok_iff (version : Value) (x : Value) :
  VersionImpl.init_versionNumber version = Ok x <->
  x = get version "versionNumber" /\
  (defined (get version "versionNumber") = true ->
   validator.isNonEmptyString (get version "versionNumber") ||
   validator.isNumber (get version "versionNumber") = true /\
   Number_isInteger (Number (get version "versionNumber")) = true).
Proof.
  unfold VersionImpl.init_versionNumber.
  destruct (defined (get version "versionNumber")) eqn:D.
  - rewrite <- negb_orb.
    destruct (validator.isNonEmptyString _ || validator.isNumber _); simpl.
    + destruct (Number_isInteger _); simpl; split.
      * intros E. injection E as <-. now split.
      * intros [-> _]. reflexivity.
      * discriminate.
      * intros [_ F]. destruct (F eq_refl) as [_ F']. discriminate F'.
    + split; [discriminate|].
      intros [_ F]. destruct (F eq_refl) as [F' _]. discriminate F'.
  - rewrite (defined_false _ D). split.
    + intros E. injection E as <-. split; [reflexivity|discriminate].
    + intros [-> _]. reflexivity.
Qed.

Lemma init_updateTime_Ok_iff (version : Value) (x : Value) :
  VersionImpl.init_updateTime version = Ok x <->
  x = (if validator.isISODateString (get version "updateTime")
       then VString (toUTCString (new_Date (get version "updateTime")))
       else VUndefined) /\
  (defined (get version "updateTime") = true ->
   validator.isISODateString (get version "updateTime") ||
   validator.isUTCDateString (get version "updateTime") = true).
Proof.
  unfold VersionImpl.init_updateTime.
  destruct (defined (get version "updateTime")) eqn:D.
  - rewrite <- negb_orb.
    destruct (validator.isISODateString (get version "updateTime")) eqn:I;
      simpl.
    + split.
      * intros E. injection E as <-. now split.
      * intros [-> _]. reflexivity.
    + destruct (validator.isUTCDateString (get version "updateTime")); simpl;
        split.
      * intros E. injection E as <-. now split.
      * intros [-> _]. reflexivity.
      * discriminate.
      * intros [_ F]. discriminate (F eq_refl).
  - rewrite (defined_false _ D). simpl. split.
    + intros E. injection E as <-. split; [reflexivity|discriminate].
    + intros [-> _]. reflexivity.
Qed.

End FieldBlocks.

Section VersionExtras.
Context {rt : Runtime}.

(** X1. The Version constructor accepts exactly the non-null objects in
    which every property that is present has the shape its block checks: an
    integer-valued non-empty string or number for [versionNumber], a
    non-empty string for [updateOrigin], [updateType], [description] and
    [rollbackSource], a non-null object for [updateUser], a boolean for
    [isLegacy], an ISO or UTC date string for [updateTime]. *)
Theorem VersionImpl_accepts_iff (version : Value) :
  (exists r, VersionImpl.new version = Ok r) <->
  validator.isNonNullObject version = true /\
  (defined (get version "versionNumber") = true ->
   validator.isNonEmptyString (get version "versionNumber") ||
   validator.isNumber (get version "versionNumber") = true /\
   Number_isInteger (Number (get version "versionNumber")) = true) /\
  (defined (get version "updateOrigin") = true ->
   validator.isNonEmptyString (get version "updateOrigin") = true) /\
  (defined (get version "updateType") = true ->
   validator.isNonEmptyString (get version "updateType") = true) /\
  (defined (get version "updateUser") = true ->
   validator.isNonNullObject (get version "updateUser") = true) /\
  (defined (get version "description") = true ->
   validator.isNonEmptyString (get version "description") = true) /\
  (defined (get version "rollbackSource") = true ->
   validator.isNonEmptyString (get version "rollbackSource") = true) /\
  (defined (get version "isLegacy") = true ->
   validator.isBoolean (get version "isLegacy") = true) /\
  (defined (get version "updateTime") = true ->
   validator.isISODateString (get version "updateTime") ||
   validator.isUTCDateString (get version "updateTime") = true).
Proof.
  split.
  - intros [r H]. apply VersionImpl_new_Ok in H.
    destruct H as (F0 & F1 & F2 & F3 & F4 & F5 & F6 & F7 & F8).
    apply init_versionNumber_Ok_iff in F1.
    apply optional_field_Ok_iff in F2, F3, F4, F5, F6, F7.
    apply init_updateTime_Ok_iff in F8.
    repeat split; try tauto; apply F1; assumption.
  - intros (F0 & F1 & F2 & F3 & F4 & F5 & F6 & F7 & F8).
    exists (VersionImpl.mk (get version "versionNumber")
              (if validator.isISODateString (get version "updateTime")
               then VString (toUTCString (new_Date (get version "updateTime")))
               else VUndefined)
              (get version "updateOrigin") (get version "updateType")
              (get version "updateUser") (get version "description")
              (get version "rollbackSource") (get version "isLegacy")).
    apply VersionImpl_new_Ok. simpl.
    split; [exact F0|].
    split; [apply init_versionNumber_Ok_iff; now split|].
    do 6 (split; [apply optional_field_Ok_iff; now split|]).
    apply init_updateTime_Ok_iff. now split.
Qed.

(** X2. In a normalized Version, every field but [updateTime] is the input's
    property as it was read, undefined when the property is absent; and
    [updateTime] is the UTC rendering of the input's when that is an ISO date
    string, and undefined otherwise. *)
Theorem VersionImpl_fields_pass_through (version : Value) (r : VersionImpl.t) :
  VersionImpl.new version = Ok r ->
  VersionImpl.versionNumber r = get version "versionNumber" /\
  VersionImpl.updateOrigin r = get version "updateOrigin" /\
  VersionImpl.updateType r = get version "updateType" /\
  VersionImpl.updateUser r = get version "updateUser" /\
  VersionImpl.description r = get version "description" /\
  VersionImpl.rollbackSource r = get version "rollbackSource" /\
  VersionImpl.isLegacy r = get version "isLegacy" /\
  VersionImpl.updateTime r =
    (if validator.isISODateString (get version "updateTime")
     then VString (toUTCString (new_Date (get version "updateTime")))
     else VUndefined).
Proof.
  intros H. apply VersionImpl_new_Ok in H.
  destruct H as (F0 & F1 & F2 & F3 & F4 & F5 & F6 & F7 & F8).
  apply init_versionNumber_Ok_iff in F1.
  apply optional_field_Ok_iff in F2, F3, F4, F5, F6, F7.
  apply init_updateTime_Ok_iff in F8.
  repeat split; tauto.
Qed.

(** X4. The Version constructor reads the eight properties it knows and
    nothing else: two objects that agree on them normalize alike, whatever
    other properties they carry. *)
Theorem VersionImpl_reads_only_its_properties (o o' : Value) :
  validator.isNonNullObject o = true ->
  validator.isNonNullObject o' = true ->
  (forall k, In k version_properties -> get o k = get o' k) ->
  VersionImpl.new o = VersionImpl.new o'.
Proof.
  intros Ho Ho' Hext.
  unfold VersionImpl.new, VersionImpl.init_versionNumber,
    VersionImpl.init_updateTime, VersionImpl.optional_field.
  rewrite Ho, Ho'.
  rewrite (Hext "versionNumber"), (Hext "updateOrigin"), (Hext "updateType"),
    (Hext "updateUser"), (Hext "description"), (Hext "rollbackSource"),
    (Hext "isLegacy"), (Hext "updateTime")
    by (simpl; tauto).
  reflexivity.
Qed.

(** X5. On an object, the Version constructor throws exactly what the first
    failing field block throws, the blocks taken in the order
    [versionNumber], [updateOrigin], [updateType], [updateUser],
    [description], [rollbackSource], [isLegacy], [updateTime]; and it
    succeeds exactly when no block fails. *)
Theorem VersionImpl_first_failure (version : Value) :
  validator.isNonNullObject version = true ->
  (forall e, VersionImpl.new version = Throw e <->
             first_failure version_blocks version = Some e) /\
  ((exists r, VersionImpl.new version = Ok r) <->
   first_failure version_blocks version = None).
Proof.
  intros Ho. unfold VersionImpl.new, version_blocks, first_failure.
  rewrite Ho. simpl negb. cbv iota.
  repeat match goal with
         | |- context [bind ?c _] =>
             lazymatch c with
             | context [bind] => fail
             | _ => destruct c; simpl bind; cbv beta iota;
                    [|split;
                      [intros e'; split; intros E; injection E as <-; reflexivity
                      |split; [intros [r E]; discriminate E|discriminate]]]
             end
         end.
  split.
  - intros e'. split; discriminate.
  - split; [reflexivity|intros _; eexists; reflexivity].
Qed.

(** X6. Normalizing the serialization of a normalized Version reproduces
    every field other than [updateTime] whenever it succeeds, and it
    succeeds and reproduces the Version as a whole when the Version has no
    [updateTime]. *)
Theorem VersionImpl_renormalizes (version : Value) (r : VersionImpl.t) :
  VersionImpl.new version = Ok r ->
  (forall r', VersionImpl.new (VersionImpl.toJSON r) = Ok r' ->
   VersionImpl.versionNumber r' = VersionImpl.versionNumber r /\
   VersionImpl.updateOrigin r' = VersionImpl.updateOrigin r /\
   VersionImpl.updateType r' = VersionImpl.updateType r /\
   VersionImpl.updateUser r' = VersionImpl.updateUser r /\
   VersionImpl.description r' = VersionImpl.description r /\
   VersionImpl.rollbackSource r' = VersionImpl.rollbackSource r /\
   VersionImpl.isLegacy r' = VersionImpl.isLegacy r) /\
  (VersionImpl.updateTime r = VUndefined ->
   VersionImpl.new (VersionImpl.toJSON r) = Ok r).
Proof.
  intros H. rewrite VersionImpl_new_toJSON.
  rewrite (VersionImpl_renormalize _ _ H). split.
  - intros r'.
    destruct (VersionImpl.init_updateTime (VersionImpl.instance r)); simpl;
      [|discriminate].
    intros E. injection E as <-. simpl. repeat split; reflexivity.
  - intros Hu. unfold VersionImpl.init_updateTime.
    replace (get (VersionImpl.instance r) "updateTime")
      with (VersionImpl.updateTime r) by reflexivity.
    rewrite Hu. simpl. destruct r; simpl in *. now subst.
Qed.

End VersionExtras.

Section TemplateExtras.
Context {rt : Runtime}.

Lemma init_version_Ok_iff (config : Value) (v : option VersionImpl.t) :
  RemoteConfigTemplateImpl.init_version config = Ok v <->
  (defined (get config "version") = false /\ v = None) \/
  (defined (get config "version") = true /\
   exists r, VersionImpl.new (get config "version") = Ok r /\ v = Some r).
Proof.
  unfold RemoteConfigTemplateImpl.init_version.
  destruct (defined (get config "version")).
  - destruct (VersionImpl.new (get config "version")) as [r|e]; simpl; split.
    + intros E. injection E as <-. right. split; [reflexivity|].
      exists r. now split.
    + intros [[D _]|[_ (r' & E & ->)]]; [discriminate D|].
      now injection E as ->.
    + discriminate.
    + intros [[D _]|[_ (r' & E & _)]]; [discriminate D|discriminate E].
  - split.
    + intros E. injection E as <-. left. now split.
    + intros [[_ ->]|[D _]]; [reflexivity|discriminate D].
Qed.

(** X7. The template constructor accepts exactly the non-null objects with
    a non-empty string [etag] whose [parameters] and [parameterGroups], when
    present, are non-null objects, whose [conditions], when present, is an
    array, and whose [version], when present, the Version constructor
    accepts. *)
Theorem RemoteConfigTemplateImpl_accepts_iff (config : Value) :
  (exists t, RemoteConfigTemplateImpl.new config = Ok t) <->
  validator.isNonNullObject config = true /\
  validator.isNonEmptyString (get config "etag") = true /\
  (defined (get config "parameters") = true ->
   validator.isNonNullObject (get config "parameters") = true) /\
  (defined (get config "parameterGroups") = true ->
   validator.isNonNullObject (get config "parameterGroups") = true) /\
  (defined (get config "conditions") = true ->
   validator.isArray (get config "conditions") = true) /\
  (defined (get config "version") = true ->
   exists r, VersionImpl.new (get config "version") = Ok r).
Proof.
  split.
  - intros [t H]. apply RemoteConfigTemplateImpl_new_Ok in H.
    destruct H as (E0 & E1 & E2 & E3 & E4 & E5 & _).
    unfold RemoteConfigTemplateImpl.init_parameters in E2.
    unfold RemoteConfigTemplateImpl.init_parameterGroups in E3.
    unfold RemoteConfigTemplateImpl.init_conditions in E4.
    apply init_version_Ok_iff in E5.
    split; [exact E0|]. split; [exact E1|].
    split; [|split; [|split]]; intros D.
    + rewrite D in E2.
      now destruct (validator.isNonNullObject (get config "parameters")).
    + rewrite D in E3.
      now destruct (validator.isNonNullObject (get config "parameterGroups")).
    + rewrite D in E4.
      now destruct (validator.isArray (get config "conditions")).
    + destruct E5 as [[D' _]|[_ (r & E & _)]].
      * rewrite D in D'. discriminate D'.
      * now exists r.
  - intros (E0 & E1 & Hp & Hg & Hc & Hv).
    assert (Ev : exists v, RemoteConfigTemplateImpl.init_version config = Ok v).
    { destruct (defined (get config "version")) eqn:D.
      - destruct (Hv eq_refl) as [r Hr]. exists (Some r).
        apply init_version_Ok_iff. right. split; [exact D|]. now exists r.
      - exists None. apply init_version_Ok_iff. left. now split. }
    destruct Ev as [v Ev].
    exists (RemoteConfigTemplateImpl.mk
              (if defined (get config "parameters")
               then get config "parameters" else VObject [])
              (if defined (get config "parameterGroups")
               then get config "parameterGroups" else VObject [])
              (if defined (get config "conditions")
               then get config "conditions" else VArray [])
              (get config "etag") v).
    apply RemoteConfigTemplateImpl_new_Ok. simpl.
    unfold RemoteConfigTemplateImpl.init_parameters,
      RemoteConfigTemplateImpl.init_parameterGroups,
      RemoteConfigTemplateImpl.init_conditions.
    repeat split; try assumption.
    + destruct (defined (get config "parameters")); [|reflexivity].
      now rewrite (Hp eq_refl).
    + destruct (defined (get config "parameterGroups")); [|reflexivity].
      now rewrite (Hg eq_refl).
    + destruct (defined (get config "conditions")); [|reflexivity].
      now rewrite (Hc eq_refl).
Qed.

(** X8. A constructed template has a version exactly when the input has
    one, and it is the input's version as the Version constructor
    normalizes it. *)
Theorem template_version_is_normalized (config : Value)
    (t : RemoteConfigTemplateImpl.t) :
  RemoteConfigTemplateImpl.new config = Ok t ->
  (defined (get config "version") = false ->
   RemoteConfigTemplateImpl.version t = None) /\
  (defined (get config "version") = true ->
   exists r, VersionImpl.new (get config "version") = Ok r /\
             RemoteConfigTemplateImpl.version t = Some r).
Proof.
  intros H. apply RemoteConfigTemplateImpl_new_Ok in H.
  destruct H as (_ & _ & _ & _ & _ & E5 & _).
  apply init_version_Ok_iff in E5.
  destruct E5 as [[D ->]|[D (r & E & ->)]]; split; intros D';
    rewrite D in D'; try discriminate D'.
  - reflexivity.
  - now exists r.
Qed.

(** X9. Every constructed template has a non-empty string [etag], non-null
    objects for [parameters] and [parameterGroups] and an array for
    [conditions]; none of the four is ever undefined or null. *)
Theorem template_invariant (config : Value) (t : RemoteConfigTemplateImpl.t) :
  RemoteConfigTemplateImpl.new config = Ok t ->
  validator.isNonEmptyString (RemoteConfigTemplateImpl.etag t) = true /\
  validator.isNonNullObject (RemoteConfigTemplateImpl.parameters t) = true /\
  validator.isNonNullObject (RemoteConfigTemplateImpl.parameterGroups t) = true /\
  validator.isArray (RemoteConfigTemplateImpl.conditions t) = true.
Proof.
  intros H. apply RemoteConfigTemplateImpl_new_Ok in H.
  destruct H as (_ & E1 & E2 & E3 & E4 & _ & E6).
  unfold RemoteConfigTemplateImpl.init_parameters in E2.
  unfold RemoteConfigTemplateImpl.init_parameterGroups in E3.
  unfold RemoteConfigTemplateImpl.init_conditions in E4.
  unfold RemoteConfigTemplateImpl.etag. rewrite E6.
  split; [exact E1|]. split; [|split].
  - destruct (defined (get config "parameters")); [|now injection E2 as <-].
    destruct (validator.isNonNullObject (get config "parameters")) eqn:V;
      [|discriminate E2].
    now injection E2 as <-.
  - destruct (defined (get config "parameterGroups")); [|now injection E3 as <-].
    destruct (validator.isNonNullObject (get config "parameterGroups")) eqn:V;
      [|discriminate E3].
    now injection E3 as <-.
  - destruct (defined (get config "conditions")); [|now injection E4 as <-].
    destruct (validator.isArray (get config "conditions")) eqn:V;
      [|discriminate E4].
    now injection E4 as <-.
Qed.

(** X11. When the input passes the [etag] guard and the three collection
    checks, and its [version] is present and rejected by the Version
    constructor, the template constructor throws that same error. *)
Theorem template_version_failure_propagates (config : Value) (e : Exception) :
  validator.isNonNullObject config = true ->
  validator.isNonEmptyString (get config "etag") = true ->
  (defined (get config "parameters") = true ->
   validator.isNonNullObject (get config "parameters") = true) ->
  (defined (get config "parameterGroups") = true ->
   validator.isNonNullObject (get config "parameterGroups") = true) ->
  (defined (get config "conditions") = true ->
   validator.isArray (get config "conditions") = true) ->
  defined (get config "version") = true ->
  VersionImpl.new (get config "version") = Throw e ->
  RemoteConfigTemplateImpl.new config = Throw e.
Proof.
  intros E0 E1 Hp Hg Hc D Hv.
  unfold RemoteConfigTemplateImpl.new, RemoteConfigTemplateImpl.init_parameters,
    RemoteConfigTemplateImpl.init_parameterGroups,
    RemoteConfigTemplateImpl.init_conditions,
    RemoteConfigTemplateImpl.init_version.
  rewrite E0, E1, D, Hv. simpl.
  destruct (defined (get config "parameters"));
    [rewrite (Hp eq_refl)|]; simpl;
  (destruct (defined (get config "parameterGroups"));
    [rewrite (Hg eq_refl)|]); simpl;
  (destruct (defined (get config "conditions"));
    [rewrite (Hc eq_refl)|]); reflexivity.
Qed.

(** X12. The template constructor reads the five properties it knows and
    nothing else: two objects that agree on them, with an acceptable [etag],
    normalize alike, whatever other properties they carry. *)
Theorem template_reads_only_its_properties (o o' : Value) :
  validator.isNonNullObject o = true ->
  validator.isNonNullObject o' = true ->
  validator.isNonEmptyString (get o "etag") = true ->
  (forall k, In k template_properties -> get o k = get o' k) ->
  RemoteConfigTemplateImpl.new o = RemoteConfigTemplateImpl.new o'.
Proof.
  intros Ho Ho' He Hext.
  unfold RemoteConfigTemplateImpl.new, RemoteConfigTemplateImpl.init_parameters,
    RemoteConfigTemplateImpl.init_parameterGroups,
    RemoteConfigTemplateImpl.init_conditions,
    RemoteConfigTemplateImpl.init_version.
  rewrite Ho, Ho'.
  rewrite <- (Hext "etag"), <- (Hext "parameters"), <- (Hext "parameterGroups"),
    <- (Hext "conditions"), <- (Hext "version")
    by (simpl; tauto).
  rewrite He. reflexivity.
Qed.

End TemplateExtras.

Section ArrayMapFailure.
Context {A B : Type} (f : A -> Result B).

(** [Array_map] throws [e] exactly when some element throws [e] and every
    element before it is mapped. *)
Lemma Array_map_first_failure (xs : list A) (e : Exception) :
  Array_map f xs = Throw e <->
  exists before x after,
    xs = (before ++ x :: after)%list /\
    Forall (fun a => exists b, f a = Ok b) before /\
    f x = Throw e.
Proof.
  induction xs as [|x xs IH]; simpl.
  - split; [discriminate|].
    intros (before & y & after & E & _). now destruct before.
  - destruct (f x) as [b|e'] eqn:Ex; simpl.
    + destruct (Array_map f xs) as [ys|e''] eqn:M; simpl.
      * split; [discriminate|].
        intros (before & y & after & E & Hb & Hy).
        destruct before as [|a before]; simpl in E; injection E as -> ->.
        -- rewrite Ex in Hy. discriminate Hy.
        -- enough (D : Ok ys = Throw e) by discriminate D.
           apply IH. exists before, y, after.
           split; [reflexivity|]. split; [now inversion Hb|exact Hy].
      * split.
        -- intros E. injection E as ->.
           destruct (proj1 IH eq_refl) as (before & y & after & -> & Hb & Hy).
           exists (x :: before), y, after.
           split; [reflexivity|]. split; [|exact Hy].
           constructor; [now exists b|exact Hb].
        -- intros (before & y & after & E & Hb & Hy).
           destruct before as [|a before]; simpl in E; injection E as -> ->.
           ++ rewrite Ex in Hy. discriminate Hy.
           ++ apply IH. exists before, y, after.
              split; [reflexivity|]. split; [now inversion Hb|exact Hy].
    + split.
      * intros E. injection E as ->. exists [], x, xs.
        split; [reflexivity|]. split; [constructor|exact Ex].
      * intros (before & y & after & E & Hb & Hy).
        destruct before as [|a before]; simpl in E; injection E as -> ->.
        -- rewrite Ex in Hy. now injection Hy as ->.
        -- inversion Hb as [|a' l' [b Hab] Hrest]; subst.
           rewrite Ex in Hab. discriminate Hab.
Qed.

End ArrayMapFailure.

Section FacadeExtras.
Context {rt : Runtime}.

(** What wrapping a response in a template does to the outcome of a
    request. *)
Lemma wrap_response_Ok (request : Result Value)
    (t : RemoteConfigTemplateImpl.t) :
  (templateResponse <- request ;; RemoteConfigTemplateImpl.new templateResponse)
    = Ok t <->
  exists response,
    request = Ok response /\ RemoteConfigTemplateImpl.new response = Ok t.
Proof.
  destruct request as [response|e]; simpl; split.
  - intros E. now exists response.
  - intros (response' & E & H). now injection E as ->.
  - discriminate.
  - intros (response' & E & _). discriminate E.
Qed.

Lemma wrap_response_Throw (request : Result Value) (e : Exception) :
  (templateResponse <- request ;; RemoteConfigTemplateImpl.new templateResponse)
    = Throw e <->
  request = Throw e \/
  exists response,
    request = Ok response /\ RemoteConfigTemplateImpl.new response = Throw e.
Proof.
  destruct request as [response|e']; simpl; split.
  - intros E. right. now exists response.
  - intros [E|(response' & E & H)]; [discriminate E|now injection E as ->].
  - intros E. left. now injection E as ->.
  - intros [E|(response' & E & _)]; [now injection E as ->|discriminate E].
Qed.

Variable client_getTemplate : Result Value.
Variable client_getTemplateAtVersion : Value -> Result Value.
Variable client_validateTemplate : Value -> Result Value.
Variable client_publishTemplate :
  Value -> option RemoteConfig.PublishOptions -> Result Value.
Variable client_rollback : Value -> Result Value.

(** X13. Each of [getTemplate], [getTemplateAtVersion], [validateTemplate],
    [publishTemplate] and [rollback] fulfils with a template exactly when the
    transport client fulfils with a response that the template constructor
    accepts, and the template is the normalized response, with the
    response's [etag]; it rejects with what the client rejected with,
    unchanged, or with the [invalid-argument] error of the constructor on the
    response.  The template that is passed in is handed to the client and
    not examined. *)
Theorem template_operations_wrap_the_response
    (versionNumber template : Value)
    (options : option RemoteConfig.PublishOptions)
    (call : Result Value * Result RemoteConfigTemplateImpl.t) :
  In call
    [ (client_getTemplate, RemoteConfig.getTemplate client_getTemplate);
      (client_getTemplateAtVersion versionNumber,
       RemoteConfig.getTemplateAtVersion client_getTemplateAtVersion
         versionNumber);
      (client_validateTemplate template,
       RemoteConfig.validateTemplate client_validateTemplate template);
      (client_publishTemplate template options,
       RemoteConfig.publishTemplate client_publishTemplate template options);
      (client_rollback versionNumber,
       RemoteConfig.rollback client_rollback versionNumber) ] ->
  (forall t, snd call = Ok t <->
   exists response,
     fst call = Ok response /\ RemoteConfigTemplateImpl.new response = Ok t) /\
  (forall t response, snd call = Ok t -> fst call = Ok response ->
   RemoteConfigTemplateImpl.etag t = get response "etag") /\
  (forall e, snd call = Throw e <->
   fst call = Throw e \/
   exists response,
     fst call = Ok response /\
     RemoteConfigTemplateImpl.new response = Throw e) /\
  (forall e, snd call = Throw e ->
   fst call = Throw e \/ fails_invalid_argument (snd call)).
Proof.
  intros Hin.
  assert (W : snd call =
              (templateResponse <- fst call ;;
               RemoteConfigTemplateImpl.new templateResponse)).
  { simpl in Hin.
    destruct Hin as [<-|[<-|[<-|[<-|[<-|[]]]]]]; reflexivity. }
  rewrite W. split; [|split; [|split]].
  - intros t. apply wrap_response_Ok.
  - intros t response Ht Hr. apply wrap_response_Ok in Ht.
    destruct Ht as (response' & E & H). rewrite Hr in E. injection E as <-.
    apply RemoteConfigTemplateImpl_new_Ok in H. apply H.
  - intros e. apply wrap_response_Throw.
  - intros e He. pose proof He as He'. apply wrap_response_Throw in He.
    destruct He as [E|(response & E & H)]; [now left|right].
    rewrite E. simpl. rewrite E in He'. simpl in He'.
    apply (RemoteConfigTemplateImpl_new_only response e He').
Qed.

Variable ListVersionsOptions : Type.
Variable client_listVersions :
  option ListVersionsOptions -> Result RemoteConfig.ListVersionsResponse.

(** X14. [listVersions] rejects with what the transport client rejected
    with, unchanged; and on a response it rejects exactly when an entry of the
    version list is rejected by the Version constructor, with the
    [invalid-argument] error of the first such entry: one bad entry loses
    the whole page. *)
Theorem listVersions_first_failure (options : option ListVersionsOptions)
    (e : Exception) :
  RemoteConfig.listVersions ListVersionsOptions client_listVersions options
    = Throw e <->
  client_listVersions options = Throw e \/
  exists response before raw after,
    client_listVersions options = Ok response /\
    RemoteConfig.response_versions response
      = Some (before ++ raw :: after)%list /\
    Forall (fun v => exists w, VersionImpl.new v = Ok w) before /\
    VersionImpl.new raw = Throw e /\
    fails_invalid_argument (VersionImpl.new raw).
Proof.
  unfold RemoteConfig.listVersions.
  destruct (client_listVersions options) as [response|e'] eqn:C; simpl.
  - destruct (RemoteConfig.response_versions response) as [vs|] eqn:V.
    + destruct (Array_map VersionImpl.new vs) as [ws|e''] eqn:M; simpl.
      * split; [discriminate|].
        intros [E|(response' & before & raw & after & E & Hv & Hb & Hr & _)];
          [discriminate E|].
        injection E as <-. rewrite V in Hv. injection Hv as ->.
        enough (D : Ok ws = Throw e) by discriminate D.
        rewrite <- M. apply Array_map_first_failure.
        now exists before, raw, after.
      * split.
        -- intros E. injection E as ->. right.
           apply Array_map_first_failure in M.
           destruct M as (before & raw & after & -> & Hb & Hr).
           exists response, before, raw, after.
           repeat split; try assumption; try reflexivity.
           apply (VersionImpl_new_only raw e Hr).
        -- intros [E|(response' & before & raw & after & E & Hv & Hb & Hr & _)];
             [discriminate E|].
           injection E as <-. rewrite V in Hv. injection Hv as ->.
           assert (M' : Array_map VersionImpl.new (before ++ raw :: after)%list
                        = Throw e)
             by (apply Array_map_first_failure; now exists before, raw, after).
           rewrite M in M'. now injection M' as ->.
    + split; [discriminate|].
      intros [E|(response' & before & raw & after & E & Hv & _)];
        [discriminate E|].
      injection E as <-. rewrite V in Hv. discriminate Hv.
  - split.
    + intros E. left. now injection E as ->.
    + intros [E|(response' & before & raw & after & E & _)];
        [now injection E as ->|discriminate E].
Qed.

(** X15. [createTemplateFromJSON] returns a template exactly when its
    argument is a non-empty string that [JSON.parse] accepts and whose value
    the template constructor accepts, and the template is that value
    normalized; in every other case it throws [invalid-argument], and
    nothing else. *)
Theorem createTemplateFromJSON_outcomes (json : Value) :
  (forall t, RemoteConfig.createTemplateFromJSON json = Ok t <->
   exists s v,
     json = VString s /\ s <> EmptyString /\ JSON_parse s = inl v /\
     RemoteConfigTemplateImpl.new v = Ok t) /\
  ((exists t, RemoteConfig.createTemplateFromJSON json = Ok t) \/
   fails_invalid_argument (RemoteConfig.createTemplateFromJSON json)).
Proof.
  unfold RemoteConfig.createTemplateFromJSON. split.
  - intros t. destruct json as [| |b|n|s|vs|ps]; simpl;
      try (split; [discriminate|intros (s' & v & E & _); discriminate E]).
    destruct s as [|c s]; simpl.
    + split; [discriminate|].
      intros (s' & v & E & Hne & _). injection E as <-. now destruct Hne.
    + destruct (JSON_parse (String c s)) as [v|err] eqn:P; split.
      * intros H. exists (String c s), v. repeat split; try assumption.
        discriminate.
      * intros (s' & v' & E & _ & P' & H). injection E as <-.
        rewrite P in P'. now injection P' as ->.
      * discriminate.
      * intros (s' & v' & E & _ & P' & _). injection E as <-.
        rewrite P in P'. discriminate P'.
  - destruct (negb (validator.isNonEmptyString json));
      [right; apply fails_invalid_argument_throw|].
    destruct (JSON_parse (chars json)) as [v|err];
      [|right; apply fails_invalid_argument_throw].
    destruct (RemoteConfigTemplateImpl.new v) as [t|e] eqn:E.
    + left. now exists t.
    + right. rewrite <- E. apply (RemoteConfigTemplateImpl_new_only v e E).
Qed.

End FacadeExtras.

Section MoreExamples.

#[local] Existing Instance Reference.runtime.

(** X2 at a version record with all eight fields. *)
Lemma VersionImpl_fields_pass_through_witness :
  VersionImpl.versionNumber full_version_normalized
    = get full_version "versionNumber" /\
  VersionImpl.updateOrigin full_version_normalized
    = get full_version "updateOrigin" /\
  VersionImpl.updateType full_version_normalized
    = get full_version "updateType" /\
  VersionImpl.updateUser full_version_normalized
    = get full_version "updateUser" /\
  VersionImpl.description full_version_normalized
    = get full_version "description" /\
  VersionImpl.rollbackSource full_version_normalized
    = get full_version "rollbackSource" /\
  VersionImpl.isLegacy full_version_normalized
    = get full_version "isLegacy" /\
  VersionImpl.updateTime full_version_normalized =
    (if validator.isISODateString (get full_version "updateTime")
     then VString (toUTCString (new_Date (get full_version "updateTime")))
     else VUndefined).
Proof.
  apply (@VersionImpl_fields_pass_through Reference.runtime full_version
           full_version_normalized).
  vm_compute. reflexivity.
Defined.

(** X4 at a version record with and without a property the constructor
    does not know. *)
Lemma VersionImpl_reads_only_its_properties_witness :
  VersionImpl.new
    (VObject [ ("versionNumber", VString "86");
               ("publishedBy", VString "someone") ]) =
  VersionImpl.new (VObject [("versionNumber", VString "86")]).
Proof.
  apply (@VersionImpl_reads_only_its_properties Reference.runtime).
  - reflexivity.
  - reflexivity.
  - intros k Hin. simpl in Hin.
    destruct Hin as [<-|[<-|[<-|[<-|[<-|[<-|[<-|[<-|[]]]]]]]]]; reflexivity.
Defined.

(** X5 at a version record whose [updateOrigin] and [updateTime] are both
    wrong: the error is the one of [updateOrigin], the earlier block. *)
Lemma VersionImpl_first_failure_witness :
  VersionImpl.new
    (VObject [ ("updateTime", VString "yesterday");
               ("updateOrigin", VNumber (Finite 1 0)) ]) =
  Throw (FirebaseRemoteConfigError "invalid-argument"
           "Version update origin must be a non-empty string").
Proof.
  apply (proj1 (@VersionImpl_first_failure Reference.runtime
                  (VObject [ ("updateTime", VString "yesterday");
                             ("updateOrigin", VNumber (Finite 1 0)) ])
                  eq_refl)).
  vm_compute. reflexivity.
Defined.

(** X6 at the Version with a number only. *)
Lemma VersionImpl_renormalizes_witness :
  VersionImpl.new (VersionImpl.toJSON numbered_version) = Ok numbered_version.
Proof.
  apply (proj2 (@VersionImpl_renormalizes Reference.runtime
                  (VObject [("versionNumber", VString "86")])
                  numbered_version eq_refl)).
  reflexivity.
Defined.

(** X8 at a template input with the full version record. *)
Lemma template_version_is_normalized_witness :
  exists r,
    VersionImpl.new
      (get (VObject [("etag", VString "abc"); ("version", full_version)])
         "version") = Ok r /\
    RemoteConfigTemplateImpl.version
      (RemoteConfigTemplateImpl.mk (VObject []) (VObject []) (VArray [])
         (VString "abc") (Some full_version_normalized)) = Some r.
Proof.
  apply (proj2 (@template_version_is_normalized Reference.runtime
                  (VObject [("etag", VString "abc"); ("version", full_version)])
                  (RemoteConfigTemplateImpl.mk (VObject []) (VObject [])
                     (VArray []) (VString "abc")
                     (Some full_version_normalized))
                  ltac:(vm_compute; reflexivity))).
  reflexivity.
Defined.

(** X9 at the template of [{etag: "abc"}]. *)
Lemma template_invariant_witness :
  validator.isNonEmptyString
    (RemoteConfigTemplateImpl.etag
       (RemoteConfigTemplateImpl.mk (VObject []) (VObject []) (VArray [])
          (VString "abc") None)) = true /\
  validator.isNonNullObject
    (RemoteConfigTemplateImpl.parameters
       (RemoteConfigTemplateImpl.mk (VObject []) (VObject []) (VArray [])
          (VString "abc") None)) = true /\
  validator.isNonNullObject
    (RemoteConfigTemplateImpl.parameterGroups
       (RemoteConfigTemplateImpl.mk (VObject []) (VObject []) (VArray [])
          (VString "abc") None)) = true /\
  validator.isArray
    (RemoteConfigTemplateImpl.conditions
       (RemoteConfigTemplateImpl.mk (VObject []) (VObject []) (VArray [])
          (VString "abc") None)) = true.
Proof.
  apply (@template_invariant Reference.runtime
           (VObject [("etag", VString "abc")])).
  reflexivity.
Defined.

(** X11 at a template input whose version has a string for [isLegacy]. *)
Lemma template_version_failure_propagates_witness :
  RemoteConfigTemplateImpl.new
    (VObject [ ("etag", VString "abc");
               ("version", VObject [("isLegacy", VString "yes")]) ]) =
  Throw (FirebaseRemoteConfigError "invalid-argument"
           "Version.isLegacy must be a boolean").
Proof.
  apply (@template_version_failure_propagates Reference.runtime);
    simpl; solve [reflexivity | discriminate].
Defined.

(** X12 at a template input with and without a property the constructor
    does not know. *)
Lemma template_reads_only_its_properties_witness :
  RemoteConfigTemplateImpl.new
    (VObject [("etag", VString "abc"); ("projectId", VString "p")]) =
  RemoteConfigTemplateImpl.new (VObject [("etag", VString "abc")]).
Proof.
  apply (@template_reads_only_its_properties Reference.runtime).
  - reflexivity.
  - reflexivity.
  - reflexivity.
  - intros k Hin. simpl in Hin.
    destruct Hin as [<-|[<-|[<-|[<-|[<-|[]]]]]]; reflexivity.
Defined.

(** X13 on a client that answers [getTemplate] and rejects [rollback]. *)
Lemma template_operations_wrap_the_response_witness :
  RemoteConfigTemplateImpl.etag
    (RemoteConfigTemplateImpl.mk (VObject []) (VObject []) (VArray [])
       (VString "etag-1") None)
    = get (VObject [("etag", VString "etag-1")]) "etag" /\
  RemoteConfig.rollback (fun _ => rejecting_client) (VString "5")
    = Throw (TransportError "network error").
Proof.
  split.
  - apply (proj1 (proj2
             (@template_operations_wrap_the_response Reference.runtime
                answering_client (fun _ => rejecting_client)
                (fun _ => rejecting_client) (fun _ _ => rejecting_client)
                (fun _ => rejecting_client) (VString "5") VNull None
                (answering_client, RemoteConfig.getTemplate answering_client)
                (or_introl eq_refl)))).
    + reflexivity.
    + reflexivity.
  - apply (proj1 (proj2 (proj2
             (@template_operations_wrap_the_response Reference.runtime
                answering_client (fun _ => rejecting_client)
                (fun _ => rejecting_client) (fun _ _ => rejecting_client)
                (fun _ => rejecting_client) (VString "5") VNull None
                (rejecting_client,
                 RemoteConfig.rollback (fun _ => rejecting_client) (VString "5"))
                (or_intror (or_intror (or_intror (or_intror
                   (or_introl eq_refl))))))))).
    left. reflexivity.
Defined.

(** X14 on a page whose second entry is rejected. *)
Lemma listVersions_first_failure_witness :
  RemoteConfig.listVersions unit faulty_client None =
  Throw (FirebaseRemoteConfigError "invalid-argument"
           "Version number must be an integer or a string in int64 format").
Proof.
  apply (@listVersions_first_failure Reference.runtime unit faulty_client).
  right.
  exists faulty_response, [VObject [("versionNumber", VString "7")]],
    (VObject [("versionNumber", VString "6.5")]),
    [VObject [("versionNumber", VString "5")]].
  split; [reflexivity|]. split; [reflexivity|].
  split; [|split].
  - constructor; [|constructor]. eexists. vm_compute. reflexivity.
  - vm_compute. reflexivity.
  - eexists. vm_compute. reflexivity.
Defined.

(** X16 at the template of a response whose version has a number only. *)
Lemma roundtrip_without_updateTime_witness :
  RemoteConfigTemplateImpl.new (RemoteConfigTemplateImpl.toJSON numbered_template)
    = Ok numbered_template.
Proof.
  apply (@roundtrip_without_updateTime Reference.runtime numbered_config
           numbered_template).
  - vm_compute. reflexivity.
  - intros v E. injection E as <-. reflexivity.
Defined.

End MoreExamples.
